(** * The N-body dashboard (app/main.py) and the particle model it drives

    The dashboard is a Panel application: a handful of module-level globals
    (the model, the periodic callback, the table, the widgets) and the
    callbacks that read and assign them: [update_model], [visualize_model],
    [play], [reset] and [edit_model].  The callbacks are embedded as
    computations of a state-and-exception monad over a record of those
    globals; the user and the scheduler are a transition system over the
    callbacks.  [open_readme] opens the modal and touches none of the
    globals; it is left out.

    Python floats are idealised as real numbers throughout: [np.hypot] is
    the Euclidean norm, [1.0e-8] is the real number 10^-8, and the float
    sliders hold reals.  Python ints are [Z]. *)

From Stdlib Require Import Reals Lra Lia ZArith String List.
From stdpp Require Import base list.
Import ListNotations.

Open Scope R_scope.

(* ===================================================================== *)
(** * ParticleModel: the native extension                                *)
(* ===================================================================== *)

(** A particle as the dashboard sees it: [particle.x], [particle.y],
    [particle.vx], [particle.vy], [particle.m]. *)
Record Particle : Type := mkParticle {
  x : R;
  y : R;
  vx : R;
  vy : R;
  m : R
}.

(** An axis-aligned region [(x0, y0, x1, y1)]. *)
Definition Rect : Type := (R * R * R * R)%type.

(** Modelled from the spec: the Configuration record of section 3, missing
    with the extension's sources.  The field order is the order of the
    facade's [construct]. *)
Record Configuration : Type := mkConfiguration {
  cfg_num_particles : Z;
  cfg_bounds : R;
  cfg_seed : Z;
  cfg_theta : R;
  cfg_dt : R;
  cfg_thread_count : Z
}.

(** Modelled from the spec: what a leaf holds.  One particle reference, or
    the particles merged at the subdivision cap (section 4.2), with their
    indices into the particle store. *)
Record Body : Type := mkBody {
  body_x : R;
  body_y : R;
  body_m : R;
  body_ids : list nat
}.

(** Modelled from the spec: aggregate mass and centre of mass of a node. *)
Record Aggregate : Type := mkAggregate {
  agg_m : R;
  agg_x : R;
  agg_y : R
}.

(** Modelled from the spec: the QuadtreeNode of section 3, a leaf with zero
    or one occupant, or an internal node with four quadrants and the
    aggregate of its subtree. *)
Inductive QuadtreeNode : Type :=
| Leaf (region : Rect) (occupant : option Body)
| Internal (region : Rect) (agg : Aggregate) (sw se nw ne : QuadtreeNode).

Inductive Quadrant : Type := SW | SE | NW | NE.

(** Modelled from the spec: the simulator facade's state.  [tree] is the
    most recently built tree, absent before the first step. *)
Record MultithreadedParticleSystem : Type := mkSystem {
  config : Configuration;
  particles : list Particle;
  tree : option QuadtreeNode
}.

(** Modelled from the spec: what the spec leaves open about the engine, the
    constant of gravitation, the softening term, the subdivision cap and
    the seeded random source of initial positions and masses (arguments:
    seed, bounds, index). *)
Record Physics : Type := mkPhysics {
  G : R;
  softening : R;
  max_depth : nat;
  spawn_x : Z -> R -> nat -> R;
  spawn_y : Z -> R -> nat -> R;
  spawn_m : Z -> R -> nat -> R
}.

Definition Rsum (l : list R) : R := fold_right Rplus 0 l.

Definition total_mass (ps : list Particle) : R := Rsum (map m ps).

(** Modelled from the spec: the root extent [(-bounds, -bounds, bounds,
    bounds)] of section 3. *)
Definition root_bounds (b : R) : Rect := (- b, - b, b, b).

Definition mid_x (r : Rect) : R := let '(x0, _, x1, _) := r in (x0 + x1) / 2.
Definition mid_y (r : Rect) : R := let '(_, y0, _, y1) := r in (y0 + y1) / 2.
Definition side (r : Rect) : R := let '(x0, _, x1, _) := r in x1 - x0.

(** Modelled from the spec: the quadrant of a region a position falls in.
    Positions outside the region fall in the quadrant on their side of the
    centre, which is the clamping policy of section 4.2. *)
Definition quadrant_of (r : Rect) (px py : R) : Quadrant :=
  if Rlt_dec px (mid_x r)
  then (if Rlt_dec py (mid_y r) then SW else NW)
  else (if Rlt_dec py (mid_y r) then SE else NE).

(** Modelled from the spec: the four equal quadrants of a region. *)
Definition subregion (r : Rect) (q : Quadrant) : Rect :=
  let '(x0, y0, x1, y1) := r in
  match q with
  | SW => (x0, y0, mid_x r, mid_y r)
  | SE => (mid_x r, y0, x1, mid_y r)
  | NW => (x0, mid_y r, mid_x r, y1)
  | NE => (mid_x r, mid_y r, x1, y1)
  end.

Definition quadrant_eqb (a b : Quadrant) : bool :=
  match a, b with
  | SW, SW | SE, SE | NW, NW | NE, NE => true
  | _, _ => false
  end.

Definition zero_aggregate : Aggregate := mkAggregate 0 0 0.

(** Modelled from the spec: subdividing a region into four empty leaves. *)
Definition subdivide (r : Rect) : QuadtreeNode :=
  Internal r zero_aggregate
    (Leaf (subregion r SW) None) (Leaf (subregion r SE) None)
    (Leaf (subregion r NW) None) (Leaf (subregion r NE) None).

Definition with_child (t : QuadtreeNode) (q : Quadrant) (c : QuadtreeNode)
  : QuadtreeNode :=
  match t with
  | Leaf r o => Leaf r o
  | Internal r a sw se nw ne =>
      match q with
      | SW => Internal r a c se nw ne
      | SE => Internal r a sw c nw ne
      | NW => Internal r a sw se c ne
      | NE => Internal r a sw se nw c
      end
  end.

(** Modelled from the spec: particles beyond the cap are treated as
    coincident, their mass merged at the leaf (section 4.2). *)
Definition merge (old new : Body) : Body :=
  mkBody (body_x old) (body_y old) (body_m old + body_m new)
         (body_ids old ++ body_ids new).

(** Modelled from the spec: a leaf that already holds a particle receives a
    second one.  The region is subdivided and both are re-inserted,
    recursing until they separate or the cap on the depth is reached;
    [depth] counts the subdivisions still allowed below this region. *)
Fixpoint separate (depth : nat) (r : Rect) (old new : Body) : QuadtreeNode :=
  match depth with
  | O => Leaf r (Some (merge old new))
  | S d =>
      let qo := quadrant_of r (body_x old) (body_y old) in
      let qn := quadrant_of r (body_x new) (body_y new) in
      if quadrant_eqb qo qn
      then with_child (subdivide r) qo (separate d (subregion r qo) old new)
      else with_child
             (with_child (subdivide r) qo (Leaf (subregion r qo) (Some old)))
             qn (Leaf (subregion r qn) (Some new))
  end.

(** Modelled from the spec: insertion of one particle into the tree
    (section 4.2, structural phase). *)
Fixpoint insert (depth : nat) (t : QuadtreeNode) (b : Body) {struct t}
  : QuadtreeNode :=
  match t with
  | Leaf r None => Leaf r (Some b)
  | Leaf r (Some old) => separate depth r old b
  | Internal r a sw se nw ne =>
      match quadrant_of r (body_x b) (body_y b) with
      | SW => Internal r a (insert (pred depth) sw b) se nw ne
      | SE => Internal r a sw (insert (pred depth) se b) nw ne
      | NW => Internal r a sw se (insert (pred depth) nw b) ne
      | NE => Internal r a sw se nw (insert (pred depth) ne b)
      end
  end.

Definition body_aggregate (b : Body) : Aggregate :=
  mkAggregate (body_m b) (body_x b) (body_y b).

(** Modelled from the spec: leaf aggregate = its own particle, or zero if
    empty; an internal node carries its aggregate. *)
Definition node_aggregate (t : QuadtreeNode) : Aggregate :=
  match t with
  | Leaf _ None => zero_aggregate
  | Leaf _ (Some b) => body_aggregate b
  | Internal _ a _ _ _ _ => a
  end.

Definition node_mass (t : QuadtreeNode) : R := agg_m (node_aggregate t).

(** Modelled from the spec: internal aggregate = sum of mass over the
    children, weighted average of their centres of mass. *)
Definition combine (cs : list Aggregate) : Aggregate :=
  let total := Rsum (map agg_m cs) in
  mkAggregate total
    (Rsum (map (fun c => agg_m c * agg_x c) cs) / total)
    (Rsum (map (fun c => agg_m c * agg_y c) cs) / total).

(** Modelled from the spec: the bottom-up aggregation pass that follows the
    insertions. *)
Fixpoint aggregate (t : QuadtreeNode) : QuadtreeNode :=
  match t with
  | Leaf r o => Leaf r o
  | Internal r _ sw se nw ne =>
      let sw' := aggregate sw in
      let se' := aggregate se in
      let nw' := aggregate nw in
      let ne' := aggregate ne in
      Internal r (combine (map node_aggregate [sw'; se'; nw'; ne']))
               sw' se' nw' ne'
  end.

(** Modelled from the spec: the particle snapshot handed to the builder,
    each particle with its stable index. *)
Definition bodies (ps : list Particle) : list Body :=
  imap (fun i p => mkBody (x p) (y p) (m p) [i]) ps.

(** Modelled from the spec: every node region of a tree, in pre-order. *)
Fixpoint regions (t : QuadtreeNode) : list Rect :=
  match t with
  | Leaf r _ => [r]
  | Internal r _ sw se nw ne =>
      r :: regions sw ++ regions se ++ regions nw ++ regions ne
  end.

Section Engine.

Variable phys : Physics.

(** Modelled from the spec: the Quadtree Builder, a fresh tree over the
    current positions: insertions from a single empty leaf covering the
    root bounds, then aggregation. *)
Definition build (b : R) (ps : list Particle) : QuadtreeNode :=
  aggregate
    (fold_left (insert (max_depth phys)) (bodies ps)
               (Leaf (root_bounds b) None)).

(** Modelled from the spec: softened inverse-square attraction of a point
    mass on a particle at [(px, py)]. *)
Definition attraction (px py : R) (a : Aggregate) : R * R :=
  let dx := agg_x a - px in
  let dy := agg_y a - py in
  let d2 := dx * dx + dy * dy + softening phys in
  let k := G phys * agg_m a / (d2 * sqrt d2) in
  (k * dx, k * dy).

Definition Rpair_add (a b : R * R) : R * R := (a.1 + b.1, a.2 + b.2).

(** Modelled from the spec: the Force Evaluator of section 4.3 for the
    particle of index [i] at [(px, py)]. *)
Fixpoint acceleration (theta : R) (i : nat) (px py : R) (t : QuadtreeNode)
  : R * R :=
  match t with
  | Leaf _ None => (0, 0)
  | Leaf _ (Some b) =>
      if decide (body_ids b = [i]) then (0, 0)
      else attraction px py (body_aggregate b)
  | Internal r a sw se nw ne =>
      let d := sqrt ((agg_x a - px) * (agg_x a - px)
                     + (agg_y a - py) * (agg_y a - py)) in
      if Rlt_dec (side r / d) theta then attraction px py a
      else Rpair_add (acceleration theta i px py sw)
             (Rpair_add (acceleration theta i px py se)
                (Rpair_add (acceleration theta i px py nw)
                           (acceleration theta i px py ne)))
  end.

(** Modelled from the spec: the semi-implicit Euler step of section 4.4. *)
Definition integrate (dt : R) (p : Particle) (a : R * R) : Particle :=
  let vx' := vx p + a.1 * dt in
  let vy' := vy p + a.2 * dt in
  mkParticle (x p + vx' * dt) (y p + vy' * dt) vx' vy' (m p).

(** Modelled from the spec: [step()], one build / evaluate / integrate
    cycle.  The worker partitions of the Thread Coordinator compute the
    same per-particle results as this sequential pass. *)
Definition update (sys : MultithreadedParticleSystem)
  : MultithreadedParticleSystem :=
  let cfg := config sys in
  let t := build (cfg_bounds cfg) (particles sys) in
  let step_particle (i : nat) (p : Particle) : Particle :=
    integrate (cfg_dt cfg) p (acceleration (cfg_theta cfg) i (x p) (y p) t) in
  mkSystem cfg (imap step_particle (particles sys)) (Some t).

(** Modelled from the spec: [extents()], empty before the first step. *)
Definition get_extents (sys : MultithreadedParticleSystem) : list Rect :=
  match tree sys with
  | None => []
  | Some t => regions t
  end.

(** Modelled from the spec: the particle of index [i] at construction:
    seeded random position and mass, zero velocity. *)
Definition spawn (seed : Z) (b : R) (i : nat) : Particle :=
  mkParticle (spawn_x phys seed b i) (spawn_y phys seed b i) 0 0
             (spawn_m phys seed b i).

(** Modelled from the spec: [construct(num_particles, bounds, seed, theta,
    dt, thread_count)] of section 4.6; [None] is InvalidConfiguration. *)
Definition construct (num_particles : Z) (b : R) (seed : Z)
    (theta dt : R) (thread_count : Z)
  : option MultithreadedParticleSystem :=
  if decide (num_particles <= 0)%Z then None
  else if decide (thread_count <= 0)%Z then None
  else if Rle_dec b 0 then None
  else if Rlt_dec theta 0 then None
  else Some (mkSystem
               (mkConfiguration num_particles b seed theta dt thread_count)
               (map (spawn seed b) (seq 0 (Z.to_nat num_particles)))
               None).

End Engine.

(* ===================================================================== *)
(** * app/main.py: the globals                                           *)
(* ===================================================================== *)

(** [pd.DataFrame(..., columns=['x','y','m'])]: one row per particle. *)
Definition ParticleFrame : Type := list (R * R * R).

(** [pd.DataFrame(..., columns=['x0','y0','x1','y1'])]: one row per
    rectangle. *)
Definition ExtentFrame : Type := list Rect.

(** What [visualize_model] returns: the empty overlay, or the scatter plot
    of the particles over the rectangles of the quadtree. *)
Inductive Overlay : Type :=
| EmptyOverlay
| PointsOverRectangles (points : ParticleFrame) (rectangles : ExtentFrame)
                       (alpha : R) (overlay_framewise : bool).

(** A periodic callback handed out by [pn.state.add_periodic_callback]. *)
Record PeriodicCallback : Type := mkPeriodicCallback {
  running : bool;
  period : Z
}.

(** The [value] of every input widget.  The Particles per Thread slider
    runs from 1 to 1000 in steps of 1 and is multiplied into a particle
    count: it holds whole numbers.  The thread-count slider is a discrete
    slider over a list of options, without a value when the list is
    empty. *)
Record Widgets : Type := mkWidgets {
  seed_input : Z;
  num_particles_slider : Z;
  bounds_slider : R;
  time_delta_slider : R;
  theta_slider : R;
  thread_count_slider : option Z;
  fps_slider : Z;
  quadtree_display : bool;
  auto_scale_axes : bool
}.

(** The module-level globals the callbacks read and assign. *)
Record State : Type := mkState {
  model : option MultithreadedParticleSystem;
  particle_pipe : option (ParticleFrame * ExtentFrame);
  plot : Overlay;
  table_value : option ParticleFrame;
  table_disabled : bool;
  periodic_callback : option PeriodicCallback;
  framewise : bool;
  play_button_name : string;
  widgets : Widgets
}.

(** The argument of the table's [on_edit] callback. *)
Record TableEditEvent : Type := mkTableEditEvent {
  column : string;
  row : nat;
  value : R
}.

Inductive Exception : Type :=
| AttributeError
| TypeError
| IndexError
| ZeroDivisionError
| InvalidConfiguration.

Inductive Outcome (A : Type) : Type :=
| Returned (a : A)
| Raised (e : Exception).
Arguments Returned {A} a.
Arguments Raised {A} e.

(** A callback runs on the globals and either returns or raises; what it
    assigned before raising stays assigned. *)
Definition Callback (A : Type) : Type := State -> Outcome A * State.

Definition ret {A} (a : A) : Callback A := fun s => (Returned a, s).

Definition raise {A} (e : Exception) : Callback A := fun s => (Raised e, s).

Definition bind {A B} (c : Callback A) (k : A -> Callback B) : Callback B :=
  fun s =>
    match c s with
    | (Returned a, s') => k a s'
    | (Raised e, s') => (Raised e, s')
    end.

Definition gets {A} (f : State -> A) : Callback A := fun s => (Returned (f s), s).

Definition modify (f : State -> State) : Callback unit :=
  fun s => (Returned tt, f s).

Declare Scope callback_scope.
Delimit Scope callback_scope with callback.
Notation "v <- c ;; k" := (bind c (fun v => k))
  (at level 100, c at next level, right associativity) : callback_scope.
Notation "c ;; k" := (bind c (fun _ => k))
  (at level 100, right associativity) : callback_scope.

Definition with_model (v : option MultithreadedParticleSystem) (s : State) : State :=
  mkState v (particle_pipe s) (plot s) (table_value s) (table_disabled s)
          (periodic_callback s) (framewise s) (play_button_name s) (widgets s).

Definition with_pipe (v : option (ParticleFrame * ExtentFrame)) (o : Overlay)
    (s : State) : State :=
  mkState (model s) v o (table_value s) (table_disabled s)
          (periodic_callback s) (framewise s) (play_button_name s) (widgets s).

Definition with_table_value (v : option ParticleFrame) (s : State) : State :=
  mkState (model s) (particle_pipe s) (plot s) v (table_disabled s)
          (periodic_callback s) (framewise s) (play_button_name s) (widgets s).

Definition with_table_disabled (v : bool) (s : State) : State :=
  mkState (model s) (particle_pipe s) (plot s) (table_value s) v
          (periodic_callback s) (framewise s) (play_button_name s) (widgets s).

Definition with_periodic_callback (v : option PeriodicCallback) (s : State)
  : State :=
  mkState (model s) (particle_pipe s) (plot s) (table_value s)
          (table_disabled s) v (framewise s) (play_button_name s) (widgets s).

Definition with_framewise (v : bool) (s : State) : State :=
  mkState (model s) (particle_pipe s) (plot s) (table_value s)
          (table_disabled s) (periodic_callback s) v (play_button_name s)
          (widgets s).

Definition with_play_button_name (v : string) (s : State) : State :=
  mkState (model s) (particle_pipe s) (plot s) (table_value s)
          (table_disabled s) (periodic_callback s) (framewise s) v (widgets s).

Definition with_widgets (v : Widgets) (s : State) : State :=
  mkState (model s) (particle_pipe s) (plot s) (table_value s)
          (table_disabled s) (periodic_callback s) (framewise s)
          (play_button_name s) v.

(** [[[particle.x, particle.y, particle.m] for particle in model.particles]] *)
Definition particle_frame (ps : list Particle) : ParticleFrame :=
  map (fun particle => (x particle, y particle, m particle)) ps.

(** [visualize_model(data)]; it reads the globals [framewise] and
    [quadtree_display].  [None] is the pipe's initial, empty data. *)
Definition visualize_model (fw : bool) (display : bool)
    (data : option (ParticleFrame * ExtentFrame)) : Overlay :=
  match data with
  | None => EmptyOverlay
  | Some (particle_data, extent_data) =>
      PointsOverRectangles particle_data extent_data
        (0.25 * (if display then 1 else 0)) fw
  end.

(** [np.hypot] *)
Definition hypot (a b : R) : R := sqrt (a * a + b * b).

(** The body of the loop of [reset] over [model.particles]. *)
Definition orbit (particle : Particle) : Particle :=
  let r := hypot (x particle) (y particle) in
  if Rgt_dec r 1e-8
  then mkParticle (x particle) (y particle)
                  (- y particle / r) (x particle / r) (m particle)
  else particle.

Definition set_x (v : R) (p : Particle) : Particle :=
  mkParticle v (y p) (vx p) (vy p) (m p).
Definition set_y (v : R) (p : Particle) : Particle :=
  mkParticle (x p) v (vx p) (vy p) (m p).
Definition set_m (v : R) (p : Particle) : Particle :=
  mkParticle (x p) (y p) (vx p) (vy p) v.

Definition with_particles (ps : list Particle)
    (sys : MultithreadedParticleSystem) : MultithreadedParticleSystem :=
  mkSystem (config sys) ps (tree sys).

(** The events the dashboard reacts to once it is loaded: a click on the
    play button (named Play or Stop), a click on the reset button, an edit
    of a table cell, a firing of the periodic callback, and the user moving
    the input widgets. *)
Inductive Event : Type :=
| PlayClick
| ResetClick
| TableEdit (event : TableEditEvent)
| PeriodicTick
| WidgetInput (w : Widgets).

(** A slider from [start] to [stop] in steps of [step]. *)
Definition on_grid (start stop step v : R) : Prop :=
  exists k : nat, v = start + INR k * step /\ v <= stop.

(* ===================================================================== *)
(** * app/main.py: the callbacks                                         *)
(* ===================================================================== *)

Section Dashboard.

(** The engine constants, and [os.cpu_count()] of the host. *)
Variable phys : Physics.
Variable cpu_count : Z.

Open Scope callback_scope.

(** [[2 ** i for i in range(int(np.log2(os.cpu_count())))]] *)
Definition thread_count : list Z :=
  map (fun i => (2 ^ Z.of_nat i)%Z) (seq 0 (Z.to_nat (Z.log2 cpu_count))).

(** The widgets as the script creates them.  A discrete slider starts at
    its first option, and has no value when it has no option. *)
Definition initial_widgets : Widgets :=
  mkWidgets 1337 100 100 0.1 0.5 (head thread_count) 30 false false.

(** The globals once the script has run, before the page is loaded. *)
Definition initial : State :=
  mkState None None EmptyOverlay None false None true "Play" initial_widgets.

(** The ranges the widgets keep their values in. *)
Definition in_range (w : Widgets) : Prop :=
  (1 <= num_particles_slider w <= 1000)%Z
  /\ on_grid 25 2500 25 (bounds_slider w)
  /\ on_grid 0.1 1.0 0.1 (time_delta_slider w)
  /\ on_grid 0.0 2.0 0.1 (theta_slider w)
  /\ match thread_count_slider w with
     | Some t => In t thread_count
     | None => thread_count = []
     end
  /\ (1 <= fps_slider w <= 60)%Z.

(** [model], when it is not [None]. *)
Definition the_model : Callback MultithreadedParticleSystem :=
  o <- gets model ;;
  match o with
  | Some sys => ret sys
  | None => raise AttributeError
  end.

(** [particle_pipe.send(data)]: the pipe holds the data, and the dynamic
    map bound to the pipe calls [visualize_model] on them. *)
Definition send (data : ParticleFrame * ExtentFrame) : Callback unit :=
  modify (fun s =>
    with_pipe (Some data)
      (visualize_model (framewise s) (quadtree_display (widgets s))
                       (Some data)) s).

(** [periodic_callback.stop()] *)
Definition stop : Callback unit :=
  modify (fun s =>
    match periodic_callback s with
    | Some cb => with_periodic_callback
                   (Some (mkPeriodicCallback false (period cb))) s
    | None => s
    end).

Definition update_model : Callback unit :=
  sys <- the_model ;;
  modify (with_model (Some (update phys sys))) ;;
  sys <- the_model ;;
  let particle_data := particle_frame (particles sys) in
  let extent_data := get_extents sys in
  send (particle_data, extent_data) ;;
  modify (with_table_value (Some particle_data)).

(** The first branch of [play]. *)
Definition play_start : Callback unit :=
  modify (with_play_button_name "Stop") ;;
  fps <- gets (fun s => fps_slider (widgets s)) ;;
  (if (fps =? 0)%Z then raise ZeroDivisionError else ret tt) ;;
  modify (with_periodic_callback
            (Some (mkPeriodicCallback true (1000 / fps)%Z))) ;;
  modify (with_table_disabled true).

(** The second branch of [play]. *)
Definition play_stop : Callback unit :=
  modify (with_play_button_name "Play") ;;
  stop ;;
  modify (with_table_disabled false) ;;
  sys <- the_model ;;
  let particle_data := particle_frame (particles sys) in
  let extent_data := get_extents sys in
  send (particle_data, extent_data).

Definition play : Callback unit :=
  pc <- gets periodic_callback ;;
  match pc with
  | None => play_start
  | Some cb =>
      if negb (running cb) then play_start
      else if running cb then play_stop
      else ret tt
  end.

Definition reset : Callback unit :=
  pc <- gets periodic_callback ;;
  match pc with
  | Some cb =>
      if running cb
      then (modify (with_play_button_name "Play") ;; stop)
      else ret tt
  | None => ret tt
  end ;;
  modify (with_periodic_callback None) ;;
  w <- gets widgets ;;
  threads <- match thread_count_slider w with
             | Some t => ret t
             | None => raise TypeError
             end ;;
  let num_particles := (num_particles_slider w * threads)%Z in
  sys <- match construct phys num_particles (bounds_slider w) (seed_input w)
                 (theta_slider w) (time_delta_slider w) threads with
         | Some sys => ret sys
         | None => raise InvalidConfiguration
         end ;;
  modify (with_model (Some sys)) ;;
  sys <- the_model ;;
  modify (with_model (Some (with_particles (map orbit (particles sys)) sys))) ;;
  sys <- the_model ;;
  let particle_data := particle_frame (particles sys) in
  let extent_data :=
    [(- bounds_slider w, - bounds_slider w, bounds_slider w, bounds_slider w)] in
  modify (with_framewise true) ;;
  send (particle_data, extent_data) ;;
  modify (with_framewise false) ;;
  modify (with_table_value (Some particle_data)) ;;
  modify (with_table_disabled false).

(** [model.particles[row].<attribute> = value], the attribute given by its
    setter. *)
Definition assign (i : nat) (set : Particle -> Particle) : Callback unit :=
  sys <- the_model ;;
  match particles sys !! i with
  | Some p =>
      modify (with_model (Some (with_particles (<[i := set p]> (particles sys)) sys)))
  | None => raise IndexError
  end.

Definition edit_model (event : TableEditEvent) : Callback unit :=
  (if String.eqb (column event) "x" then assign (row event) (set_x (value event))
   else if String.eqb (column event) "y" then assign (row event) (set_y (value event))
   else if String.eqb (column event) "m" then assign (row event) (set_m (value event))
   else ret tt) ;;
  sys <- the_model ;;
  let particle_data := particle_frame (particles sys) in
  let extent_data := get_extents sys in
  send (particle_data, extent_data).

(** The callback each event runs. *)
Definition handler (e : Event) : Callback unit :=
  match e with
  | PlayClick => play
  | ResetClick => reset
  | TableEdit event => edit_model event
  | PeriodicTick => update_model
  | WidgetInput w => modify (with_widgets w)
  end.

Definition callback_running (s : State) : bool :=
  match periodic_callback s with
  | Some cb => running cb
  | None => false
  end.

(** When an event can happen: the periodic callback fires only while it is
    running, a disabled table takes no edits, a widget keeps its value in
    its range. *)
Definition enabled (s : State) (e : Event) : Prop :=
  match e with
  | PlayClick | ResetClick => True
  | TableEdit _ => table_disabled s = false
  | PeriodicTick => callback_running s = true
  | WidgetInput w => in_range w
  end.

(** [pn.state.onload(lambda: reset(None))] *)
Definition onload : Outcome unit * State := reset initial.

(** The states of the dashboard from its load on. *)
Inductive reachable : State -> Prop :=
| reachable_onload : reachable (onload.2)
| reachable_event (s : State) (e : Event) :
    reachable s -> enabled s e -> reachable ((handler e s).2).

(** The page loaded: the load callback returned. *)
Definition loaded : Prop := onload.1 = Returned tt.

End Dashboard.

(* ===================================================================== *)
(** * Notions the statements use                                         *)
(* ===================================================================== *)

(** The mass held by the leaves of a tree. *)
Fixpoint leaf_mass (t : QuadtreeNode) : R :=
  match t with
  | Leaf _ None => 0
  | Leaf _ (Some b) => body_m b
  | Internal _ _ sw se nw ne =>
      leaf_mass sw + leaf_mass se + leaf_mass nw + leaf_mass ne
  end.

(** The arguments [reset] gives the constructor when the thread-count
    slider holds [threads]. *)
Definition constructed (phys : Physics) (w : Widgets) (threads : Z)
  : option MultithreadedParticleSystem :=
  construct phys (num_particles_slider w * threads)%Z (bounds_slider w)
            (seed_input w) (theta_slider w) (time_delta_slider w) threads.

(** The globals [reset] leaves when the constructor returned [sys]. *)
Definition after_reset (s : State) (sys : MultithreadedParticleSystem) : State :=
  let model' := with_particles (map orbit (particles sys)) sys in
  let particle_data := particle_frame (particles model') in
  let extent_data := [root_bounds (bounds_slider (widgets s))] in
  mkState (Some model') (Some (particle_data, extent_data))
          (visualize_model true (quadtree_display (widgets s))
                           (Some (particle_data, extent_data)))
          (Some particle_data) false None false
          (if callback_running s then "Play"%string else play_button_name s)
          (widgets s).

(** The globals after a sequence of events. *)
Definition run_events (phys : Physics) (es : list Event) (s : State) : State :=
  fold_left (fun s e => (handler phys e s).2) es s.

(** The particle [edit_model] leaves at the edited row: the attribute the
    column names is set, and a column that names none sets nothing. *)
Definition edited (c : string) (v : R) (p : Particle) : Particle :=
  if String.eqb c "x" then set_x v p
  else if String.eqb c "y" then set_y v p
  else if String.eqb c "m" then set_m v p
  else p.

(** The label the play button shows for a state of the periodic callback. *)
Definition button_label (is_running : bool) : string :=
  if is_running then "Stop" else "Play".

(** The pipe holds the frame of the model's particles, and the plot was
    rendered from what the pipe holds. *)
Definition in_sync (s : State) : Prop :=
  option_map fst (particle_pipe s)
  = option_map (fun sys => particle_frame (particles sys)) (model s)
  /\ match plot s with
     | EmptyOverlay => particle_pipe s = None
     | PointsOverRectangles pd ed _ _ => particle_pipe s = Some (pd, ed)
     end.

(* ===================================================================== *)
(** * A concrete dashboard                                               *)
(* ===================================================================== *)

(** An engine with unit constants that spawns particle [i] at [(i + 1, 0)]
    with mass 1, on a host of eight processors. *)
Definition unit_physics : Physics :=
  mkPhysics 1 (1 / 100) 16
            (fun _ _ i => INR i + 1) (fun _ _ _ => 0) (fun _ _ _ => 1).

Definition eight_cpus : Z := 8.

(** An engine that spawns particle 0 at [(3, 4)] and every other particle at
    the origin, all of mass 1. *)
Definition origin_physics : Physics :=
  mkPhysics 1 (1 / 100) 16
            (fun _ _ i => match i with O => 3 | S _ => 0 end)
            (fun _ _ i => match i with O => 4 | S _ => 0 end)
            (fun _ _ _ => 1).

(** A paused dashboard over a model of two particles. *)
Definition two_particles : MultithreadedParticleSystem :=
  mkSystem (mkConfiguration 2 100 1337 0.5 0.1 1)
           [mkParticle 3 4 0 0 1; mkParticle (-1) 0 0 0 2] None.

Definition paused : State :=
  mkState (Some two_particles) None EmptyOverlay None false None false "Play"
          (initial_widgets eight_cpus).

(** The loaded dashboard after a click on Play. *)
Definition playing : State :=
  (handler unit_physics PlayClick (onload unit_physics eight_cpus).2).2.

(* ===================================================================== *)
(** * The engine: mass is conserved by the tree                          *)
(* ===================================================================== *)

Lemma leaf_mass_subdivide (r : Rect) : leaf_mass (subdivide r) = 0.
Proof. simpl. lra. Qed.

Lemma leaf_mass_with_child (r : Rect) (a : Aggregate)
    (sw se nw ne c : QuadtreeNode) (q : Quadrant) :
  leaf_mass (with_child (Internal r a sw se nw ne) q c)
  = leaf_mass (Internal r a sw se nw ne)
    - leaf_mass (match q with SW => sw | SE => se | NW => nw | NE => ne end)
    + leaf_mass c.
Proof. destruct q; simpl; lra. Qed.

Lemma leaf_mass_separate (depth : nat) :
  forall (r : Rect) (old new : Body),
    leaf_mass (separate depth r old new) = body_m old + body_m new.
Proof.
  induction depth as [|d IH]; intros r old new; cbn [separate].
  - reflexivity.
  - destruct (quadrant_of r (body_x old) (body_y old)) eqn:Eo;
      destruct (quadrant_of r (body_x new) (body_y new)) eqn:En;
      cbn [quadrant_eqb]; unfold subdivide;
      rewrite ?leaf_mass_with_child, ?IH; simpl; lra.
Qed.

Lemma leaf_mass_insert (t : QuadtreeNode) :
  forall (depth : nat) (b : Body),
    leaf_mass (insert depth t b) = leaf_mass t + body_m b.
Proof.
  induction t as [r [old|] | r a sw IHsw se IHse nw IHnw ne IHne];
    intros depth b; simpl.
  - apply leaf_mass_separate.
  - lra.
  - destruct (quadrant_of r (body_x b) (body_y b)); simpl;
      rewrite ?IHsw, ?IHse, ?IHnw, ?IHne; lra.
Qed.

Lemma leaf_mass_fold_insert (depth : nat) (bs : list Body) :
  forall t : QuadtreeNode,
    leaf_mass (fold_left (insert depth) bs t)
    = leaf_mass t + Rsum (map body_m bs).
Proof.
  induction bs as [|b bs IH]; intros t; simpl.
  - lra.
  - rewrite IH, leaf_mass_insert. lra.
Qed.

(** The aggregation pass puts at every node the mass of the leaves below. *)
Lemma node_mass_aggregate (t : QuadtreeNode) :
  node_mass (aggregate t) = leaf_mass t.
Proof.
  induction t as [r [b|] | r a sw IHsw se IHse nw IHnw ne IHne]; simpl.
  - reflexivity.
  - reflexivity.
  - unfold node_mass in *. simpl. rewrite IHsw, IHse, IHnw, IHne. lra.
Qed.

Lemma bodies_mass (ps : list Particle) :
  Rsum (map body_m (bodies ps)) = total_mass ps.
Proof.
  unfold bodies, total_mass.
  change (map body_m) with (fmap (M:=list) body_m).
  rewrite fmap_imap. f_equal.
  rewrite <- (imap_const m). apply imap_ext. reflexivity.
Qed.

Lemma node_mass_build (phys : Physics) (b : R) (ps : list Particle) :
  node_mass (build phys b ps) = total_mass ps.
Proof.
  unfold build.
  rewrite node_mass_aggregate, leaf_mass_fold_insert, bodies_mass.
  simpl. lra.
Qed.

(** A step moves the particles and leaves their masses alone. *)
Lemma update_masses (phys : Physics) (sys : MultithreadedParticleSystem) :
  map m (particles (update phys sys)) = map m (particles sys).
Proof.
  unfold update. simpl.
  change (map m) with (fmap (M:=list) m).
  rewrite fmap_imap, <- (imap_const m). apply imap_ext. reflexivity.
Qed.

Lemma update_config (phys : Physics) (sys : MultithreadedParticleSystem) :
  config (update phys sys) = config sys.
Proof. reflexivity. Qed.

(** C8. Mass conservation.  Take any state of the particle system and run
    any number [n] of steps from it; in the step that follows, the root of
    the rebuilt tree carries exactly the sum of the particle masses, both of
    the particles the tree was built over and of the particles the step
    leaves behind, which are those the next step finds before it rebuilds. *)
Theorem root_mass_conserved (phys : Physics)
    (sys : MultithreadedParticleSystem) (n : nat) :
  let before := Nat.iter n (update phys) sys in
  let after := update phys before in
  exists t : QuadtreeNode,
    tree after = Some t
    /\ node_mass t = total_mass (particles before)
    /\ node_mass t = total_mass (particles after).
Proof.
  intros before after.
  exists (build phys (cfg_bounds (config before)) (particles before)).
  split; [reflexivity|].
  rewrite node_mass_build. split; [reflexivity|].
  unfold total_mass, after. now rewrite update_masses.
Qed.

(* ===================================================================== *)
(** * The dashboard: what each callback does                             *)
(* ===================================================================== *)

Ltac unfold_callbacks :=
  unfold handler, update_model, play, play_start, play_stop, reset,
    edit_model, assign, send, stop, the_model, bind, gets, modify, ret, raise.

Lemma thread_count_positive (cpu_count t : Z) :
  In t (thread_count cpu_count) -> (1 <= t)%Z.
Proof.
  unfold thread_count. rewrite in_map_iff. intros (i & <- & _).
  pose proof (Z.pow_pos_nonneg 2 (Z.of_nat i)). lia.
Qed.

Lemma on_grid_bounds (start stop step v : R) :
  0 <= step -> on_grid start stop step v -> start <= v <= stop.
Proof.
  intros Hstep (k & -> & Hle). split; [|exact Hle].
  pose proof (pos_INR k). nra.
Qed.

Lemma construct_valid (phys : Physics) (n : Z) (b : R) (seed : Z)
    (theta dt : R) (threads : Z) :
  (1 <= n)%Z -> (1 <= threads)%Z -> 0 < b -> 0 <= theta ->
  construct phys n b seed theta dt threads
  = Some (mkSystem (mkConfiguration n b seed theta dt threads)
                   (map (spawn phys seed b) (seq 0 (Z.to_nat n))) None).
Proof.
  intros Hn Ht Hb Hth. unfold construct.
  destruct (decide (n <= 0)%Z); [lia|].
  destruct (decide (threads <= 0)%Z); [lia|].
  destruct (Rle_dec b 0); [lra|].
  destruct (Rlt_dec theta 0); [lra|].
  reflexivity.
Qed.

Lemma construct_inv (phys : Physics) (n : Z) (b : R) (seed : Z)
    (theta dt : R) (threads : Z) (sys : MultithreadedParticleSystem) :
  construct phys n b seed theta dt threads = Some sys ->
  sys = mkSystem (mkConfiguration n b seed theta dt threads)
                 (map (spawn phys seed b) (seq 0 (Z.to_nat n))) None.
Proof.
  unfold construct.
  destruct (decide (n <= 0)%Z); [discriminate|].
  destruct (decide (threads <= 0)%Z); [discriminate|].
  destruct (Rle_dec b 0); [discriminate|].
  destruct (Rlt_dec theta 0); [discriminate|].
  congruence.
Qed.

Lemma reset_returns (phys : Physics) (s : State) (threads : Z)
    (sys : MultithreadedParticleSystem) :
  thread_count_slider (widgets s) = Some threads ->
  constructed phys (widgets s) threads = Some sys ->
  reset phys s = (Returned tt, after_reset s sys).
Proof.
  unfold constructed. intros Ht Hc. unfold_callbacks.
  unfold after_reset, callback_running.
  destruct s as [mo pipe pl tv td [[[] per]|] fw name w]; simpl in *;
    rewrite Ht; simpl; rewrite Hc; reflexivity.
Qed.

Lemma reset_invalid (phys : Physics) (s : State) (threads : Z) :
  thread_count_slider (widgets s) = Some threads ->
  constructed phys (widgets s) threads = None ->
  (reset phys s).1 = Raised InvalidConfiguration
  /\ model (reset phys s).2 = model s.
Proof.
  unfold constructed. intros Ht Hc. unfold_callbacks.
  destruct s as [mo pipe pl tv td [[[] per]|] fw name w]; simpl in *;
    rewrite Ht; simpl; rewrite Hc; split; reflexivity.
Qed.

Lemma reset_no_threads (phys : Physics) (s : State) :
  thread_count_slider (widgets s) = None ->
  (reset phys s).1 = Raised TypeError
  /\ model (reset phys s).2 = model s
  /\ widgets (reset phys s).2 = widgets s.
Proof.
  intros Ht. unfold_callbacks.
  destruct s as [mo pipe pl tv td [[[] per]|] fw name w]; simpl in *;
    rewrite Ht; simpl; repeat split; reflexivity.
Qed.

(** A reset that returns has called the constructor, and the constructor
    has returned. *)
Lemma reset_returned_inv (phys : Physics) (s : State) :
  (reset phys s).1 = Returned tt ->
  exists (threads : Z) (sys : MultithreadedParticleSystem),
    thread_count_slider (widgets s) = Some threads
    /\ constructed phys (widgets s) threads = Some sys
    /\ reset phys s = (Returned tt, after_reset s sys).
Proof.
  intros Hret.
  destruct (thread_count_slider (widgets s)) as [threads|] eqn:Ht.
  - destruct (constructed phys (widgets s) threads) as [sys|] eqn:Hc.
    + exists threads, sys.
      split; [reflexivity|]. split; [exact Hc|]. exact (reset_returns phys s threads sys Ht Hc).
    + destruct (reset_invalid phys s threads Ht Hc) as [Hr _]. congruence.
  - destruct (reset_no_threads phys s Ht) as [Hr _]. congruence.
Qed.

Ltac case_scrutinee :=
  match goal with
  | |- context [match ?c with _ => _ end] =>
      lazymatch c with
      | context [match _ with _ => _ end] => fail
      | _ => destruct c eqn:?
      end
  end.

Ltac run_callbacks := unfold_callbacks; simpl; repeat (case_scrutinee; simpl).

(** Only the user moves the widgets. *)
Lemma handler_widgets (phys : Physics) (e : Event) (s : State) :
  widgets (handler phys e s).2
  = match e with WidgetInput w => w | _ => widgets s end.
Proof. destruct e; run_callbacks; reflexivity. Qed.

(** Away from [reset], the callbacks switch table and periodic callback
    together. *)
Lemma handler_switches_together (phys : Physics) (e : Event) (s : State) :
  e <> ResetClick ->
  table_disabled s = callback_running s ->
  table_disabled (handler phys e s).2 = callback_running (handler phys e s).2.
Proof.
  intros He. destruct e; [| congruence | | |];
    unfold callback_running; run_callbacks; intros Hs;
    try rewrite Hs in *; simpl in *; congruence.
Qed.

Lemma initial_widgets_in_range (cpu_count : Z) :
  in_range cpu_count (initial_widgets cpu_count).
Proof.
  unfold in_range, initial_widgets, on_grid; simpl.
  repeat split; try lia.
  - exists 3%nat. simpl. lra.
  - exists 0%nat. simpl. lra.
  - exists 5%nat. simpl. lra.
  - destruct (thread_count cpu_count) as [|t l]; simpl; auto.
Qed.

Lemma reachable_in_range (phys : Physics) (cpu_count : Z) (s : State) :
  reachable phys cpu_count s -> in_range cpu_count (widgets s).
Proof.
  induction 1 as [|s e Hs IH He].
  - unfold onload.
    assert (Hw : widgets (reset phys (initial cpu_count)).2
                 = widgets (initial cpu_count))
      by apply (handler_widgets phys ResetClick).
    rewrite Hw. apply initial_widgets_in_range.
  - rewrite handler_widgets. destruct e; auto.
Qed.

(** Within their ranges the widgets give the constructor valid arguments. *)
Lemma in_range_constructs (phys : Physics) (cpu_count : Z) (w : Widgets)
    (threads : Z) :
  in_range cpu_count w ->
  thread_count_slider w = Some threads ->
  (1 <= num_particles_slider w * threads)%Z
  /\ 25 <= bounds_slider w
  /\ 0 <= theta_slider w
  /\ 0.1 <= time_delta_slider w
  /\ (1 <= threads)%Z
  /\ exists sys, constructed phys w threads = Some sys.
Proof.
  intros (Hn & Hb & Hdt & Hth & Ht & _) Hsome. rewrite Hsome in Ht.
  apply thread_count_positive in Ht.
  apply on_grid_bounds in Hb; [|lra].
  apply on_grid_bounds in Hdt; [|lra].
  apply on_grid_bounds in Hth; [|lra].
  assert (1 <= num_particles_slider w * threads)%Z by nia.
  repeat split; try lra; try lia.
  eexists. unfold constructed. apply construct_valid; try lia; lra.
Qed.

(** Once the page has loaded, the thread-count slider has a value. *)
Lemma loaded_threads (phys : Physics) (cpu_count : Z) (w : Widgets) :
  loaded phys cpu_count -> in_range cpu_count w ->
  exists threads, thread_count_slider w = Some threads.
Proof.
  intros Hl (_ & _ & _ & _ & Ht & _).
  destruct (reset_returned_inv phys (initial cpu_count) Hl)
    as (t0 & _ & Hhead & _).
  destruct (thread_count_slider w) as [t|]; [eauto|].
  simpl in Hhead. rewrite Ht in Hhead. discriminate.
Qed.

(** Once the page has loaded, no reset raises. *)
Lemma loaded_reset_returns (phys : Physics) (cpu_count : Z) (s : State) :
  loaded phys cpu_count -> in_range cpu_count (widgets s) ->
  exists sys, reset phys s = (Returned tt, after_reset s sys).
Proof.
  intros Hl Hw.
  destruct (loaded_threads phys cpu_count _ Hl Hw) as [t Ht].
  destruct (in_range_constructs phys cpu_count _ t Hw Ht)
    as (_ & _ & _ & _ & _ & sys & Hsys).
  exists sys. exact (reset_returns phys s t sys Ht Hsys).
Qed.

Lemma reachable_switched_together (phys : Physics) (cpu_count : Z) (s : State) :
  loaded phys cpu_count -> reachable phys cpu_count s ->
  table_disabled s = callback_running s.
Proof.
  intros Hl. induction 1 as [|s e Hs IH He].
  - unfold onload.
    destruct (loaded_reset_returns phys cpu_count (initial cpu_count) Hl
                (initial_widgets_in_range cpu_count)) as [sys ->].
    reflexivity.
  - destruct e; try (apply handler_switches_together; [discriminate|exact IH]).
    simpl.
    destruct (loaded_reset_returns phys cpu_count s Hl
                (reachable_in_range phys cpu_count s Hs)) as [sys ->].
    reflexivity.
Qed.

(** C1. Once the page has loaded, in every state the dashboard reaches
    through play and stop clicks, resets, table edits, firings of the
    periodic callback and widget moves, the table accepts edits exactly when
    the periodic callback is not running; so a table edit and a firing of
    the periodic callback, the only caller of the step, are never both
    possible. *)
Theorem table_editable_iff_not_running (phys : Physics) (cpu_count : Z)
    (s : State) :
  loaded phys cpu_count ->
  reachable phys cpu_count s ->
  (table_disabled s = false <-> callback_running s = false)
  /\ (forall event, enabled cpu_count s (TableEdit event) ->
                    ~ enabled cpu_count s PeriodicTick).
Proof.
  intros Hl Hs.
  pose proof (reachable_switched_together phys cpu_count s Hl Hs) as Heq.
  split.
  - rewrite Heq. tauto.
  - simpl. intros _ Hd Hr. congruence.
Qed.

(** C2. A table edit of column x, y or m at a row the store has assigns the
    value to that attribute of that particle and to nothing else: the other
    attributes of the particle, the other particles, the size of the store,
    the configuration and the tree are as before, and the attribute reads
    back as the value. *)
Theorem edit_model_assigns_one_attribute (s : State)
    (sys : MultithreadedParticleSystem) (c : string) (i : nat) (v : R)
    (p : Particle) :
  model s = Some sys ->
  particles sys !! i = Some p ->
  c = "x"%string \/ c = "y"%string \/ c = "m"%string ->
  exists (sys' : MultithreadedParticleSystem) (p' : Particle),
    (edit_model (mkTableEditEvent c i v) s).1 = Returned tt
    /\ model (edit_model (mkTableEditEvent c i v) s).2 = Some sys'
    /\ particles sys' = <[i := p']> (particles sys)
    /\ particles sys' !! i = Some p'
    /\ (forall j, j <> i -> particles sys' !! j = particles sys !! j)
    /\ length (particles sys') = length (particles sys)
    /\ config sys' = config sys
    /\ tree sys' = tree sys
    /\ vx p' = vx p /\ vy p' = vy p
    /\ (c = "x"%string -> x p' = v /\ y p' = y p /\ m p' = m p)
    /\ (c = "y"%string -> x p' = x p /\ y p' = v /\ m p' = m p)
    /\ (c = "m"%string -> x p' = x p /\ y p' = y p /\ m p' = v).
Proof.
  intros Hm Hp Hc.
  assert (Hi : (i < length (particles sys))%nat)
    by (apply lookup_lt_is_Some; eauto).
  set (p' := if String.eqb c "x" then set_x v p
             else if String.eqb c "y" then set_y v p
             else set_m v p).
  exists (with_particles (<[i := p']> (particles sys)) sys), p'. subst p'.
  destruct Hc as [-> | [-> | ->]]; unfold_callbacks; simpl;
    rewrite Hm; simpl; rewrite Hp; simpl;
    (split; [reflexivity|]); (split; [reflexivity|]);
    (split; [reflexivity|]);
    (split; [now apply list_lookup_insert_eq|]);
    (split; [intros j Hj; now apply list_lookup_insert_ne|]);
    (split; [apply length_insert|]);
    repeat split; try reflexivity; discriminate.
Qed.

(** C3. An invocation of [update_model] on a loaded model returns, having
    run exactly one step of the model and read the particles and the tree
    regions of the stepped model only: these go through the pipe, in store
    order and tree order, the particle frame goes to the table, and the
    other globals are left alone. *)
Theorem update_model_steps_once (phys : Physics) (s : State)
    (sys : MultithreadedParticleSystem) :
  model s = Some sys ->
  let stepped := update phys sys in
  let particle_data := map (fun p => (x p, y p, m p)) (particles stepped) in
  let s' := (update_model phys s).2 in
  (update_model phys s).1 = Returned tt
  /\ model s' = Some stepped
  /\ particle_pipe s' = Some (particle_data, get_extents stepped)
  /\ table_value s' = Some particle_data
  /\ table_disabled s' = table_disabled s
  /\ periodic_callback s' = periodic_callback s
  /\ widgets s' = widgets s.
Proof.
  intros Hm. unfold_callbacks. simpl. rewrite Hm. simpl.
  repeat split; reflexivity.
Qed.

(** C4. When the thread-count slider has a value, [reset] calls the
    constructor on the six arguments (num_particles, bounds, seed, theta,
    dt, thread_count) in this order, each read from its widget; what the
    constructor returns becomes the model and carries these six values as
    its configuration, and a refusal of the constructor is raised. *)
Theorem reset_constructor_arguments (phys : Physics) (s : State) (threads : Z) :
  thread_count_slider (widgets s) = Some threads ->
  let w := widgets s in
  match construct phys (num_particles_slider w * threads)%Z (bounds_slider w)
                  (seed_input w) (theta_slider w) (time_delta_slider w)
                  threads with
  | Some sys =>
      (reset phys s).1 = Returned tt
      /\ model (reset phys s).2
         = Some (with_particles (map orbit (particles sys)) sys)
      /\ config sys
         = mkConfiguration (num_particles_slider w * threads)%Z
             (bounds_slider w) (seed_input w) (theta_slider w)
             (time_delta_slider w) threads
  | None => (reset phys s).1 = Raised InvalidConfiguration
  end.
Proof.
  intros Ht w.
  destruct (construct _ _ _ _ _ _ _) as [sys|] eqn:Hc.
  - rewrite (reset_returns phys s threads sys Ht Hc). simpl.
    repeat split. apply construct_inv in Hc. now subst sys.
  - now destruct (reset_invalid phys s threads Ht Hc).
Qed.

(** What the loop of [reset] makes of a particle the constructor spawned. *)
Lemma orbit_spawned (phys : Physics) (seed : Z) (b : R) (i : nat) :
  let q := spawn phys seed b i in
  let p := orbit q in
  let r := hypot (x q) (y q) in
  x p = x q /\ y p = y q /\ m p = m q
  /\ vx q = 0 /\ vy q = 0
  /\ (r > 1e-8 ->
      vx p = - y q / r /\ vy p = x q / r
      /\ x q * vx p + y q * vy p = 0
      /\ vx p * vx p + vy p * vy p = 1)
  /\ (r <= 1e-8 -> vx p = 0 /\ vy p = 0).
Proof.
  unfold orbit, spawn. cbn [x y vx vy m].
  set (px := spawn_x phys seed b i). set (py := spawn_y phys seed b i).
  destruct (Rgt_dec (hypot px py) 1e-8) as [Hgt|Hle]; cbn [x y vx vy m];
    (split; [reflexivity|]); (split; [reflexivity|]); (split; [reflexivity|]);
    (split; [reflexivity|]); (split; [reflexivity|]);
    (split; [intros Hr | intros Hr]); try lra; auto.
  set (r := hypot px py) in *.
  assert (Hr0 : r <> 0) by lra.
  assert (Hsq : r * r = px * px + py * py).
  { unfold r, hypot. apply sqrt_sqrt. nra. }
  repeat split.
  - field. exact Hr0.
  - field_simplify_eq; [|exact Hr0]. lra.
Qed.

Lemma Forall2_map_of (A : Type) (P : A -> A -> Prop) (f : A -> A)
    (l : list A) :
  Forall (fun a => P a (f a)) l -> Forall2 P l (map f l).
Proof. induction 1; simpl; constructor; assumption. Qed.

(** C5. A reset that returns has called the constructor, and its model is
    the constructed store, particle by particle in store order, with the
    positions and masses the constructor gave and the velocities the loop
    set: the constructor gave every particle zero velocity; a particle at
    distance r = hypot(x, y) above 1e-8 from the origin has the velocity
    (-y/r, x/r), which is perpendicular to its position and of magnitude 1;
    every other particle has kept its zero velocity. *)
Theorem reset_sets_orbital_velocities (phys : Physics) (s : State) :
  (reset phys s).1 = Returned tt ->
  exists (threads : Z) (sys0 sys : MultithreadedParticleSystem),
    thread_count_slider (widgets s) = Some threads
    /\ construct phys (num_particles_slider (widgets s) * threads)%Z
         (bounds_slider (widgets s)) (seed_input (widgets s))
         (theta_slider (widgets s)) (time_delta_slider (widgets s)) threads
       = Some sys0
    /\ model (reset phys s).2 = Some sys
    /\ config sys = config sys0
    /\ tree sys = tree sys0
    /\ Forall2 (fun q p =>
         let r := hypot (x q) (y q) in
         x p = x q /\ y p = y q /\ m p = m q
         /\ vx q = 0 /\ vy q = 0
         /\ (r > 1e-8 ->
             vx p = - y q / r /\ vy p = x q / r
             /\ x q * vx p + y q * vy p = 0
             /\ vx p * vx p + vy p * vy p = 1)
         /\ (r <= 1e-8 -> vx p = 0 /\ vy p = 0))
       (particles sys0) (particles sys).
Proof.
  intros Hret.
  destruct (reset_returned_inv phys s Hret) as (t & sys0 & Ht & Hc & ->).
  exists t, sys0. eexists.
  split; [exact Ht|]. split; [exact Hc|]. split; [reflexivity|].
  split; [reflexivity|]. split; [reflexivity|].
  cbn [particles with_particles].
  apply Forall2_map_of.
  apply construct_inv in Hc. subst sys0. cbn [particles].
  rewrite List.Forall_forall. intros q Hq.
  rewrite in_map_iff in Hq. destruct Hq as (i & <- & _).
  apply orbit_spawned.
Qed.

(** C6. A freshly constructed model has built no tree, so its extent
    accessor yields no rectangle; after a reset that returned, the model is
    still in that state, and the extent frame sent through the pipe is the
    single rectangle (-bounds, -bounds, bounds, bounds) of the bounds
    slider, which the dashboard built itself. *)
Theorem reset_streams_root_square (phys : Physics) (s : State) :
  (reset phys s).1 = Returned tt ->
  let b := bounds_slider (widgets s) in
  exists sys : MultithreadedParticleSystem,
    model (reset phys s).2 = Some sys
    /\ get_extents sys = []
    /\ particle_pipe (reset phys s).2
       = Some (map (fun p => (x p, y p, m p)) (particles sys),
               [(- b, - b, b, b)])
    /\ forall sys0 n bd seed theta dt threads,
         construct phys n bd seed theta dt threads = Some sys0 ->
         get_extents sys0 = [].
Proof.
  intros Hret b.
  destruct (reset_returned_inv phys s Hret) as (t & sys & _ & Hc & ->).
  eexists. split; [reflexivity|]. simpl.
  apply construct_inv in Hc. subst sys.
  repeat split.
  intros sys0 n bd seed theta dt threads Hc0.
  apply construct_inv in Hc0. now subst sys0.
Qed.

Lemma handler_config (phys : Physics) (e : Event) (s : State) :
  e <> ResetClick ->
  option_map config (model (handler phys e s).2) = option_map config (model s).
Proof.
  intros He. destruct e; [| congruence | | |]; run_callbacks;
    try reflexivity; try congruence;
    repeat match goal with
           | H : Some _ = Some _ |- _ => inversion H; clear H; subst
           | H : model _ = _ |- _ => rewrite H
           end; reflexivity.
Qed.

(** C7. Through any sequence of events without a reset (play and stop
    clicks, firings of [update_model], table edits, widget moves, each with
    the rendering by [visualize_model] it triggers) the configuration of the
    model is what it was: only the constructor call of [reset] gives the
    model a configuration, and a widget moved by the user does not reach the
    model before the next reset. *)
Theorem configuration_fixed_until_reset (phys : Physics) (es : list Event)
    (s : State) :
  Forall (fun e => e <> ResetClick) es ->
  option_map config (model (run_events phys es s)) = option_map config (model s).
Proof.
  intros Hes. revert s. unfold run_events.
  induction Hes as [|e es He _ IH]; intros s; cbn [fold_left].
  - reflexivity.
  - rewrite IH. now apply handler_config.
Qed.

(** C9. When the thread-count slider has a value, the number of particles
    [reset] gives the constructor is the value of the Particles per Thread
    slider times the thread count, a multiple of the thread count; the model
    constructed holds that many particles. *)
Theorem reset_particle_count (phys : Physics) (s : State) (threads : Z) :
  thread_count_slider (widgets s) = Some threads ->
  let w := widgets s in
  let num_particles := (num_particles_slider w * threads)%Z in
  (threads | num_particles)%Z
  /\ match construct phys num_particles (bounds_slider w) (seed_input w)
                     (theta_slider w) (time_delta_slider w) threads with
     | Some sys =>
         (reset phys s).1 = Returned tt
         /\ (exists sys', model (reset phys s).2 = Some sys'
                          /\ config sys' = config sys
                          /\ length (particles sys') = Z.to_nat num_particles)
         /\ cfg_num_particles (config sys) = num_particles
         /\ cfg_thread_count (config sys) = threads
     | None => (reset phys s).1 = Raised InvalidConfiguration
     end.
Proof.
  intros Ht w num_particles. split.
  - exists (num_particles_slider w). reflexivity.
  - destruct (construct _ _ _ _ _ _ _) as [sys|] eqn:Hc.
    + rewrite (reset_returns phys s threads sys Ht Hc). simpl.
      apply construct_inv in Hc. subst sys. simpl.
      split; [reflexivity|]. split; [|split; reflexivity].
      eexists. split; [reflexivity|]. simpl. split; [reflexivity|].
      now rewrite !length_map, length_seq.
    + now destruct (reset_invalid phys s threads Ht Hc).
Qed.

(** C10. In the state the script sets up and in every state the dashboard
    reaches, [reset] never raises InvalidConfiguration; whenever it comes to
    call the constructor, the arguments satisfy num_particles >= 1,
    bounds >= 25, theta >= 0, dt >= 0.1 and thread_count >= 1, and the
    constructor returns a model. *)
Theorem dashboard_constructs_valid (phys : Physics) (cpu_count : Z) (s : State) :
  s = initial cpu_count \/ reachable phys cpu_count s ->
  (reset phys s).1 <> Raised InvalidConfiguration
  /\ forall threads : Z,
       thread_count_slider (widgets s) = Some threads ->
       let w := widgets s in
       (1 <= num_particles_slider w * threads)%Z
       /\ 25 <= bounds_slider w /\ 0 < bounds_slider w
       /\ 0 <= theta_slider w
       /\ 0.1 <= time_delta_slider w /\ 0 < time_delta_slider w
       /\ (1 <= threads)%Z
       /\ exists sys,
            construct phys (num_particles_slider w * threads)%Z
              (bounds_slider w) (seed_input w) (theta_slider w)
              (time_delta_slider w) threads = Some sys.
Proof.
  intros Hs.
  assert (Hw : in_range cpu_count (widgets s)).
  { destruct Hs as [-> | Hs].
    - apply initial_widgets_in_range.
    - now apply reachable_in_range with phys. }
  split.
  - destruct (thread_count_slider (widgets s)) as [t|] eqn:Ht.
    + destruct (in_range_constructs phys cpu_count _ t Hw Ht)
        as (_ & _ & _ & _ & _ & sys & Hsys).
      rewrite (reset_returns phys s t sys Ht Hsys). discriminate.
    + destruct (reset_no_threads phys s Ht) as [-> _]. discriminate.
  - intros t Ht w.
    destruct (in_range_constructs phys cpu_count _ t Hw Ht)
      as (Hn & Hb & Hth & Hdt & Ht1 & sys & Hsys).
    subst w. split; [exact Hn|]. split; [exact Hb|]. split; [lra|].
    split; [exact Hth|]. split; [exact Hdt|]. split; [lra|].
    split; [exact Ht1|]. exists sys. exact Hsys.
Qed.

(* ===================================================================== *)
(** * The properties on the concrete dashboard                           *)
(* ===================================================================== *)

Lemma host_loads (phys : Physics) (cpu_count t : Z) :
  head (thread_count cpu_count) = Some t -> loaded phys cpu_count.
Proof.
  intros Hh. unfold loaded, onload.
  destruct (in_range_constructs phys cpu_count (initial_widgets cpu_count) t
              (initial_widgets_in_range cpu_count) Hh)
    as (_ & _ & _ & _ & _ & sys & Hsys).
  now rewrite (reset_returns phys (initial cpu_count) t sys Hh Hsys).
Qed.

Lemma eight_cpus_loaded : loaded unit_physics eight_cpus.
Proof. now apply host_loads with 1%Z. Qed.

Lemma table_editable_iff_not_running_witness :
  loaded unit_physics eight_cpus
  /\ reachable unit_physics eight_cpus playing
  /\ ((table_disabled playing = false <-> callback_running playing = false)
      /\ (forall event, enabled eight_cpus playing (TableEdit event) ->
                        ~ enabled eight_cpus playing PeriodicTick)).
Proof.
  assert (Hr : reachable unit_physics eight_cpus playing).
  { unfold playing. apply reachable_event; [apply reachable_onload | exact I]. }
  split; [exact eight_cpus_loaded|]. split; [exact Hr|].
  exact (table_editable_iff_not_running unit_physics eight_cpus playing
           eight_cpus_loaded Hr).
Defined.

Lemma edit_model_assigns_one_attribute_witness :
  model paused = Some two_particles
  /\ particles two_particles !! 0%nat = Some (mkParticle 3 4 0 0 1)
  /\ exists sys' p',
       model (edit_model (mkTableEditEvent "m" 0 5) paused).2 = Some sys'
       /\ particles sys' !! 0%nat = Some p'
       /\ m p' = 5 /\ x p' = 3 /\ y p' = 4.
Proof.
  split; [reflexivity|]. split; [reflexivity|].
  destruct (edit_model_assigns_one_attribute paused two_particles "m" 0 5
              (mkParticle 3 4 0 0 1) eq_refl eq_refl
              (or_intror (or_intror eq_refl)))
    as (sys' & p' & _ & Hm & _ & Hp & _ & _ & _ & _ & _ & _ & _ & _ & Hread).
  destruct (Hread eq_refl) as (Hx & Hy & Hmass).
  exists sys', p'. repeat split; assumption.
Defined.

Lemma update_model_steps_once_witness :
  model paused = Some two_particles
  /\ (update_model unit_physics paused).1 = Returned tt
  /\ model (update_model unit_physics paused).2
     = Some (update unit_physics two_particles).
Proof.
  split; [reflexivity|].
  destruct (update_model_steps_once unit_physics paused two_particles eq_refl)
    as (Hret & Hm & _).
  split; assumption.
Defined.

Lemma reset_constructor_arguments_witness :
  thread_count_slider (widgets (initial eight_cpus)) = Some 1%Z
  /\ exists sys,
       model (reset unit_physics (initial eight_cpus)).2 = Some sys
       /\ config sys = mkConfiguration 100 100 1337 0.5 0.1 1.
Proof.
  split; [reflexivity|].
  pose proof (reset_constructor_arguments unit_physics (initial eight_cpus) 1
                eq_refl) as H.
  cbv zeta in H.
  rewrite construct_valid in H by (simpl; first [lia | lra]).
  destruct H as (_ & Hm & _).
  eexists. split; [exact Hm|]. reflexivity.
Defined.

Lemma hypot_3_4 : hypot 3 4 = 5.
Proof.
  unfold hypot. replace (3 * 3 + 4 * 4) with (5 * 5) by lra.
  apply sqrt_square. lra.
Qed.

Lemma hypot_0_0 : hypot 0 0 = 0.
Proof.
  unfold hypot. replace (0 * 0 + 0 * 0) with 0 by lra. apply sqrt_0.
Qed.

Lemma reset_sets_orbital_velocities_witness :
  (reset origin_physics (initial eight_cpus)).1 = Returned tt
  /\ exists sys p0 p1,
       model (reset origin_physics (initial eight_cpus)).2 = Some sys
       /\ particles sys !! 0%nat = Some p0
       /\ particles sys !! 1%nat = Some p1
       /\ x p0 = 3 /\ y p0 = 4 /\ vx p0 = - 4 / 5 /\ vy p0 = 3 / 5
       /\ x p1 = 0 /\ y p1 = 0 /\ vx p1 = 0 /\ vy p1 = 0.
Proof.
  assert (Hl : (reset origin_physics (initial eight_cpus)).1 = Returned tt)
    by exact (host_loads origin_physics eight_cpus 1 eq_refl).
  split; [exact Hl|].
  destruct (reset_sets_orbital_velocities origin_physics (initial eight_cpus)
              Hl) as (t & sys0 & sys & Ht & Hc & Hm & _ & _ & Hall).
  assert (Hthreads : Some t = Some 1%Z) by (rewrite <- Ht; reflexivity).
  inversion Hthreads; subst t.
  apply construct_inv in Hc. subst sys0.
  destruct (Forall2_lookup_l _ _ _ 0%nat (mkParticle 3 4 0 0 1) Hall eq_refl)
    as (p0 & Hp0 & Hx0 & Hy0 & _ & _ & _ & Hfar & _).
  destruct (Forall2_lookup_l _ _ _ 1%nat (mkParticle 0 0 0 0 1) Hall eq_refl)
    as (p1 & Hp1 & Hx1 & Hy1 & _ & _ & _ & _ & Hnear).
  cbn [x y] in *.
  rewrite hypot_3_4 in Hfar. rewrite hypot_0_0 in Hnear.
  destruct Hfar as (Hvx0 & Hvy0 & _); [lra|].
  destruct Hnear as (Hvx1 & Hvy1); [lra|].
  exists sys, p0, p1. repeat split; assumption.
Defined.

Lemma reset_streams_root_square_witness :
  (reset unit_physics (initial eight_cpus)).1 = Returned tt
  /\ exists sys,
       model (reset unit_physics (initial eight_cpus)).2 = Some sys
       /\ get_extents sys = []
       /\ particle_pipe (reset unit_physics (initial eight_cpus)).2
          = Some (map (fun p => (x p, y p, m p)) (particles sys),
                  [(- 100, - 100, 100, 100)]).
Proof.
  split; [exact eight_cpus_loaded|].
  destruct (reset_streams_root_square unit_physics (initial eight_cpus)
              eight_cpus_loaded) as (sys & Hm & He & Hp & _).
  exists sys. repeat split; assumption.
Defined.

Lemma configuration_fixed_until_reset_witness :
  let es := [WidgetInput (mkWidgets 7 10 50 0.2 1.0 (Some 2%Z) 60 true false);
             PlayClick; PeriodicTick; PlayClick;
             TableEdit (mkTableEditEvent "x" 1 9)] in
  Forall (fun e => e <> ResetClick) es
  /\ option_map config (model (run_events unit_physics es paused))
     = Some (mkConfiguration 2 100 1337 0.5 0.1 1).
Proof.
  intros es.
  assert (Hes : Forall (fun e => e <> ResetClick) es)
    by (repeat constructor; discriminate).
  split; [exact Hes|].
  exact (configuration_fixed_until_reset unit_physics es paused Hes).
Defined.

Lemma reset_particle_count_witness :
  thread_count_slider (widgets (initial eight_cpus)) = Some 1%Z
  /\ (1 | num_particles_slider (widgets (initial eight_cpus)) * 1)%Z.
Proof.
  split; [reflexivity|].
  exact (proj1 (reset_particle_count unit_physics (initial eight_cpus) 1
                  eq_refl)).
Defined.

Lemma dashboard_constructs_valid_witness :
  (playing = initial eight_cpus \/ reachable unit_physics eight_cpus playing)
  /\ (reset unit_physics playing).1 <> Raised InvalidConfiguration.
Proof.
  assert (Hr : reachable unit_physics eight_cpus playing).
  { unfold playing. apply reachable_event; [apply reachable_onload | exact I]. }
  split; [right; exact Hr|].
  exact (proj1 (dashboard_constructs_valid unit_physics eight_cpus playing
                  (or_intror Hr))).
Defined.

(* ===================================================================== *)
(** * The model of the host and of the load                              *)
(* ===================================================================== *)

Example thread_count_eight_cpus : thread_count 8 = [1; 2; 4]%Z.
Proof. reflexivity. Qed.

Example thread_count_six_cpus : thread_count 6 = [1; 2]%Z.
Proof. reflexivity. Qed.

Example thread_count_single_cpu : thread_count 1 = [].
Proof. reflexivity. Qed.

(** On a host of a single processor the slider has no option, and the load
    callback raises before it constructs a model. *)
Example single_cpu_load_raises (phys : Physics) :
  (onload phys 1).1 = Raised TypeError /\ model (onload phys 1).2 = None.
Proof.
  destruct (reset_no_threads phys (initial 1) eq_refl) as (Hr & Hm & _).
  split; assumption.
Qed.

(** The page loads exactly on the hosts whose slider has an option. *)
Lemma loaded_iff_options (phys : Physics) (cpu_count : Z) :
  loaded phys cpu_count <-> thread_count cpu_count <> [].
Proof.
  split.
  - intros Hl Hnil.
    destruct (reset_returned_inv phys (initial cpu_count) Hl)
      as (t & _ & Hhead & _).
    simpl in Hhead. rewrite Hnil in Hhead. discriminate.
  - intros Hne. destruct (thread_count cpu_count) as [|t l] eqn:Ht;
      [congruence|].
    apply host_loads with t. now rewrite Ht.
Qed.

(** A loaded dashboard always has a model. *)
Lemma reachable_has_model (phys : Physics) (cpu_count : Z) (s : State) :
  loaded phys cpu_count -> reachable phys cpu_count s ->
  exists sys, model s = Some sys.
Proof.
  intros Hl. induction 1 as [|s e Hs [sys IH] He].
  - unfold onload.
    destruct (loaded_reset_returns phys cpu_count (initial cpu_count) Hl
                (initial_widgets_in_range cpu_count)) as [sys ->].
    simpl. eauto.
  - assert (Hkeep : e <> ResetClick ->
                    exists sys', model (handler phys e s).2 = Some sys').
    { intros Hne. pose proof (handler_config phys e s Hne) as Hc.
      rewrite IH in Hc.
      destruct (model (handler phys e s).2); [eauto|discriminate Hc]. }
    destruct e; try (apply Hkeep; discriminate).
    simpl.
    destruct (loaded_reset_returns phys cpu_count s Hl
                (reachable_in_range phys cpu_count s Hs)) as [sys' ->].
    simpl. eauto.
Qed.

(* ===================================================================== *)
(** * The builder on two particles                                       *)
(* ===================================================================== *)

Lemma quadrant_of_root_ne (b px py : R) :
  0 < b -> 0 <= px -> 0 <= py -> quadrant_of (root_bounds b) px py = NE.
Proof.
  intros Hb Hx Hy. unfold quadrant_of, root_bounds, mid_x, mid_y.
  destruct (Rlt_dec px _); [lra|]. destruct (Rlt_dec py _); [lra|].
  reflexivity.
Qed.

Lemma quadrant_of_root_nw (b px py : R) :
  0 < b -> px < 0 -> 0 <= py -> quadrant_of (root_bounds b) px py = NW.
Proof.
  intros Hb Hx Hy. unfold quadrant_of, root_bounds, mid_x, mid_y.
  destruct (Rlt_dec px _); [|lra]. destruct (Rlt_dec py _); [lra|].
  reflexivity.
Qed.

(** Particles at (3, 4) and (-1, 0) in bounds of 100 separate at the first
    subdivision: the tree is the root with four leaves, two of them
    occupied, and its extents are five rectangles. *)
Example build_two_particles :
  let root := root_bounds 100 in
  let t := build unit_physics 100 (particles two_particles) in
  t = Internal root
        (combine [zero_aggregate; zero_aggregate;
                  mkAggregate 2 (-1) 0; mkAggregate 1 3 4])
        (Leaf (subregion root SW) None)
        (Leaf (subregion root SE) None)
        (Leaf (subregion root NW) (Some (mkBody (-1) 0 2 [1%nat])))
        (Leaf (subregion root NE) (Some (mkBody 3 4 1 [0%nat])))
  /\ node_mass t = 3
  /\ length (get_extents (update unit_physics two_particles)) = 5%nat.
Proof.
  assert (Ht : build unit_physics 100 (particles two_particles)
               = Internal (root_bounds 100)
                   (combine [zero_aggregate; zero_aggregate;
                             mkAggregate 2 (-1) 0; mkAggregate 1 3 4])
                   (Leaf (subregion (root_bounds 100) SW) None)
                   (Leaf (subregion (root_bounds 100) SE) None)
                   (Leaf (subregion (root_bounds 100) NW)
                         (Some (mkBody (-1) 0 2 [1%nat])))
                   (Leaf (subregion (root_bounds 100) NE)
                         (Some (mkBody 3 4 1 [0%nat])))).
  { unfold build. cbn [particles two_particles bodies imap fold_left insert
                        max_depth unit_physics separate x y m body_x body_y
                        compose].
    rewrite (quadrant_of_root_ne 100 3 4) by lra.
    rewrite (quadrant_of_root_nw 100 (-1) 0) by lra.
    reflexivity. }
  cbv zeta. split; [exact Ht|]. split.
  - rewrite node_mass_build. unfold total_mass. simpl. lra.
  - unfold get_extents, update. cbn [tree config two_particles cfg_bounds].
    change (build unit_physics 100 [mkParticle 3 4 0 0 1; mkParticle (-1) 0 0 0 2])
      with (build unit_physics 100 (particles two_particles)).
    rewrite Ht. reflexivity.
Qed.

(* ===================================================================== *)
(** * The thread-count options                                           *)
(* ===================================================================== *)

(** X1. Every option of the thread-count slider is a power of two, at least
    1 and at most half the processor count of the host. *)
Theorem thread_count_options (cpu_count t : Z) :
  In t (thread_count cpu_count) ->
  exists i : nat,
    t = (2 ^ Z.of_nat i)%Z /\ (1 <= t)%Z /\ (2 * t <= cpu_count)%Z.
Proof.
  intros Hin. pose proof (thread_count_positive cpu_count t Hin) as Hpos.
  unfold thread_count in Hin. rewrite in_map_iff in Hin.
  destruct Hin as (i & <- & Hi). apply in_seq in Hi.
  exists i. split; [reflexivity|]. split; [exact Hpos|].
  assert (Hlog : (0 < Z.log2 cpu_count)%Z) by lia.
  assert (Hcpu : (0 < cpu_count)%Z).
  { destruct (Z.lt_ge_cases 0 cpu_count) as [H|H]; [exact H|].
    rewrite (Z.log2_nonpos cpu_count H) in Hlog. lia. }
  destruct (Z.log2_spec cpu_count Hcpu) as [Hle _].
  assert (Hstep : (2 * 2 ^ Z.of_nat i = 2 ^ (Z.of_nat i + 1))%Z)
    by (rewrite Z.pow_add_r by lia; lia).
  rewrite Hstep.
  apply Z.le_trans with (2 ^ Z.log2 cpu_count)%Z; [|exact Hle].
  apply Z.pow_le_mono_r; lia.
Qed.

Lemma thread_count_options_witness :
  In 4%Z (thread_count 8)
  /\ exists i : nat, 4%Z = (2 ^ Z.of_nat i)%Z /\ (1 <= 4)%Z /\ (2 * 4 <= 8)%Z.
Proof.
  assert (Hin : In 4%Z (thread_count 8)) by (simpl; tauto).
  split; [exact Hin|]. exact (thread_count_options 8 4 Hin).
Defined.

(** X2. The slider has one option for each power of two below the
    processor count, counted by the integer logarithm; on a host of fewer
    than two processors it has none, and everywhere else the first option
    is one thread. *)
Theorem thread_count_first_option (cpu_count : Z) :
  length (thread_count cpu_count) = Z.to_nat (Z.log2 cpu_count)
  /\ head (thread_count cpu_count)
     = if (cpu_count <? 2)%Z then None else Some 1%Z.
Proof.
  unfold thread_count. split.
  - now rewrite length_map, length_seq.
  - destruct (Z.ltb_spec cpu_count 2) as [Hlt|Hge].
    + assert (Hz : Z.log2 cpu_count = 0%Z) by (apply Z.log2_null; lia).
      rewrite Hz. reflexivity.
    + assert (Hpos : (0 < Z.log2 cpu_count)%Z) by (apply Z.log2_pos; lia).
      destruct (Z.to_nat (Z.log2 cpu_count)) as [|k] eqn:Hk; [lia|].
      reflexivity.
Qed.

(* ===================================================================== *)
(** * Invariants of the running dashboard                                *)
(* ===================================================================== *)

Lemma handler_label (phys : Physics) (e : Event) (s : State) :
  fps_slider (widgets s) <> 0%Z ->
  play_button_name s = button_label (callback_running s) ->
  play_button_name (handler phys e s).2
  = button_label (callback_running (handler phys e s).2).
Proof.
  destruct s as [mo pipe pl tv td pc fw name w].
  unfold button_label, callback_running. cbn [widgets play_button_name periodic_callback].
  intros Hfps. destruct e; run_callbacks; intros Hs;
    try rewrite Z.eqb_eq in *; try congruence;
    repeat match goal with
           | H : negb _ = _ |- _ => apply negb_true_iff in H || apply negb_false_iff in H
           | H : Some _ = Some _ |- _ => inversion H; clear H; subst
           end; simpl in *; congruence.
Qed.

(** X3. In every state of the dashboard the play button reads Stop while
    the periodic callback is running and Play otherwise. *)
Theorem play_button_names_next_action (phys : Physics) (cpu_count : Z)
    (s : State) :
  reachable phys cpu_count s ->
  play_button_name s = button_label (callback_running s).
Proof.
  intros Hs.
  assert (Hfps : forall w, in_range cpu_count w -> fps_slider w <> 0%Z).
  { intros w (_ & _ & _ & _ & _ & Hf). lia. }
  induction Hs as [|s e Hs IH He].
  - apply (handler_label phys ResetClick (initial cpu_count)).
    + simpl. lia.
    + reflexivity.
  - apply handler_label; [|exact IH].
    apply Hfps. now apply reachable_in_range with phys.
Qed.

Lemma reachable_playing : reachable unit_physics eight_cpus playing.
Proof.
  unfold playing. apply reachable_event; [apply reachable_onload | exact I].
Qed.

Lemma play_button_names_next_action_witness :
  reachable unit_physics eight_cpus playing
  /\ play_button_name playing = button_label (callback_running playing).
Proof.
  split; [exact reachable_playing|].
  exact (play_button_names_next_action unit_physics eight_cpus playing
           reachable_playing).
Defined.

Lemma handler_in_sync (phys : Physics) (e : Event) (s : State) :
  in_sync s -> in_sync (handler phys e s).2.
Proof.
  destruct s as [mo pipe pl tv td pc fw name w].
  unfold in_sync. cbn [particle_pipe model plot].
  destruct e; run_callbacks; intros [Hp Hv]; simpl in *;
    repeat match goal with
           | H : Some _ = Some _ |- _ => inversion H; clear H; subst
           | H : None = Some _ |- _ => discriminate H
           | H : Some _ = None |- _ => discriminate H
           end; simpl; auto.
Qed.

(** X4. In every state of the dashboard the particle frame the pipe holds
    is the frame of the model's current particles, and the plot was rendered
    from exactly the frames the pipe holds: no callback changes the particle
    store without streaming it. *)
Theorem plot_follows_model (phys : Physics) (cpu_count : Z) (s : State) :
  reachable phys cpu_count s -> in_sync s.
Proof.
  induction 1 as [|s e Hs IH He].
  - apply (handler_in_sync phys ResetClick (initial cpu_count)).
    split; reflexivity.
  - now apply handler_in_sync.
Qed.

Lemma plot_follows_model_witness :
  reachable unit_physics eight_cpus playing /\ in_sync playing.
Proof.
  split; [exact reachable_playing|].
  exact (plot_follows_model unit_physics eight_cpus playing reachable_playing).
Defined.

Lemma handler_framewise (phys : Physics) (e : Event) (s : State) :
  e <> ResetClick ->
  framewise (handler phys e s).2 = framewise s
  /\ (plot (handler phys e s).2 = plot s
      \/ exists pd ed,
           plot (handler phys e s).2
           = PointsOverRectangles pd ed
               (0.25 * (if quadtree_display (widgets s) then 1 else 0))
               (framewise s)).
Proof.
  destruct s as [mo pipe pl tv td pc fw name w].
  intros He. destruct e; [| congruence | | |]; run_callbacks;
    (split; [reflexivity|]); eauto.
Qed.

Lemma reachable_framewise (phys : Physics) (cpu_count : Z) (s : State) :
  loaded phys cpu_count -> reachable phys cpu_count s -> framewise s = false.
Proof.
  intros Hl. induction 1 as [|s e Hs IH He].
  - unfold onload.
    destruct (loaded_reset_returns phys cpu_count (initial cpu_count) Hl
                (initial_widgets_in_range cpu_count)) as [sys ->].
    reflexivity.
  - assert (Hkeep : e <> ResetClick -> framewise (handler phys e s).2 = false).
    { intros Hne. now rewrite (proj1 (handler_framewise phys e s Hne)). }
    destruct e; try (apply Hkeep; discriminate).
    simpl.
    destruct (loaded_reset_returns phys cpu_count s Hl
                (reachable_in_range phys cpu_count s Hs)) as [sys ->].
    reflexivity.
Qed.

(** X5. Once the page has loaded the global [framewise] is off between
    callbacks, so whatever a play or stop click, a firing of [update_model]
    or a table edit renders is rendered with framewise off, the rectangles
    at alpha 0.25 or 0 by the Display Quadtree toggle. *)
Theorem framewise_off_outside_reset (phys : Physics) (cpu_count : Z)
    (s : State) (e : Event) :
  loaded phys cpu_count ->
  reachable phys cpu_count s ->
  e <> ResetClick ->
  framewise s = false
  /\ framewise (handler phys e s).2 = false
  /\ (plot (handler phys e s).2 = plot s
      \/ exists pd ed,
           plot (handler phys e s).2
           = PointsOverRectangles pd ed
               (if quadtree_display (widgets s) then 0.25 else 0) false).
Proof.
  intros Hl Hs He.
  pose proof (reachable_framewise phys cpu_count s Hl Hs) as Hfw.
  destruct (handler_framewise phys e s He) as [Hk Hp].
  rewrite Hfw in *. repeat split; try assumption.
  destruct Hp as [Hp | (pd & ed & Hp)]; [now left|].
  right. exists pd, ed. rewrite Hp. f_equal.
  destruct (quadtree_display (widgets s)); lra.
Qed.

Lemma framewise_off_outside_reset_witness :
  loaded unit_physics eight_cpus
  /\ reachable unit_physics eight_cpus playing
  /\ PeriodicTick <> ResetClick
  /\ framewise (handler unit_physics PeriodicTick playing).2 = false.
Proof.
  split; [exact eight_cpus_loaded|]. split; [exact reachable_playing|].
  assert (Hne : PeriodicTick <> ResetClick) by discriminate.
  split; [exact Hne|].
  exact (proj1 (proj2 (framewise_off_outside_reset unit_physics eight_cpus
                         playing PeriodicTick eight_cpus_loaded
                         reachable_playing Hne))).
Defined.

(** X6. A reset that returns renders its frames with framewise on, over the
    single root rectangle, and leaves the global off again; it leaves no
    periodic callback, an enabled table holding the streamed frame, and the
    widgets as they were. *)
Theorem reset_renders_framewise (phys : Physics) (s : State) :
  (reset phys s).1 = Returned tt ->
  let s' := (reset phys s).2 in
  let b := bounds_slider (widgets s) in
  (exists pd,
     plot s' = PointsOverRectangles pd [(- b, - b, b, b)]
                 (if quadtree_display (widgets s) then 0.25 else 0) true
     /\ table_value s' = Some pd
     /\ particle_pipe s' = Some (pd, [(- b, - b, b, b)]))
  /\ framewise s' = false
  /\ periodic_callback s' = None
  /\ table_disabled s' = false
  /\ widgets s' = widgets s.
Proof.
  intros Hret. cbv zeta.
  destruct (reset_returned_inv phys s Hret) as (t & sys & _ & _ & ->).
  simpl. split; [|repeat split].
  eexists. split; [|split; reflexivity].
  unfold root_bounds. f_equal. destruct (quadtree_display (widgets s)); lra.
Qed.

Lemma reset_renders_framewise_witness :
  (reset unit_physics (initial eight_cpus)).1 = Returned tt
  /\ framewise (reset unit_physics (initial eight_cpus)).2 = false
  /\ periodic_callback (reset unit_physics (initial eight_cpus)).2 = None.
Proof.
  split; [exact eight_cpus_loaded|].
  destruct (reset_renders_framewise unit_physics (initial eight_cpus)
              eight_cpus_loaded) as (_ & Hfw & Hpc & _).
  split; assumption.
Defined.

Lemma handler_period (phys : Physics) (e : Event) (s : State) :
  (1 <= fps_slider (widgets s) <= 60)%Z ->
  (forall cb, periodic_callback s = Some cb -> (16 <= period cb <= 1000)%Z) ->
  forall cb, periodic_callback (handler phys e s).2 = Some cb ->
             (16 <= period cb <= 1000)%Z.
Proof.
  destruct s as [mo pipe pl tv td pc fw name w].
  cbn [widgets periodic_callback]. intros Hfps.
  assert (Hdiv : (16 <= 1000 / fps_slider w <= 1000)%Z).
  { split.
    - apply Z.div_le_lower_bound; lia.
    - apply Z.div_le_upper_bound; nia. }
  destruct e; run_callbacks; intros Hpc cb Hcb;
    repeat match goal with
           | H : Some _ = Some _ |- _ => inversion H; clear H; subst
           | H : None = Some _ |- _ => discriminate H
           end; simpl; try exact Hdiv; try (now apply Hpc); eauto.
Qed.

(** X7. The periodic callback of the dashboard, running or stopped, always
    has a period between 16 and 1000 milliseconds: it is [1000 // fps] for
    the value the FPS slider had, within 1 and 60, when Play was clicked. *)
Theorem periodic_callback_period (phys : Physics) (cpu_count : Z) (s : State)
    (cb : PeriodicCallback) :
  reachable phys cpu_count s ->
  periodic_callback s = Some cb ->
  (16 <= period cb <= 1000)%Z.
Proof.
  intros Hs. revert cb.
  assert (Hfps : forall w, in_range cpu_count w -> (1 <= fps_slider w <= 60)%Z).
  { intros w (_ & _ & _ & _ & _ & Hf). exact Hf. }
  induction Hs as [|s e Hs IH He].
  - apply (handler_period phys ResetClick (initial cpu_count)).
    + simpl. lia.
    + intros cb Hcb. discriminate Hcb.
  - apply handler_period; [|exact IH].
    apply Hfps. now apply reachable_in_range with phys.
Qed.

Lemma periodic_callback_period_witness :
  reachable unit_physics eight_cpus playing
  /\ periodic_callback playing = Some (mkPeriodicCallback true 33)
  /\ (16 <= 33 <= 1000)%Z.
Proof.
  assert (Hpc : periodic_callback playing = Some (mkPeriodicCallback true 33)).
  { unfold playing, onload.
    destruct (loaded_reset_returns unit_physics eight_cpus (initial eight_cpus)
                eight_cpus_loaded (initial_widgets_in_range eight_cpus))
      as [sys ->].
    reflexivity. }
  split; [exact reachable_playing|]. split; [exact Hpc|].
  exact (periodic_callback_period unit_physics eight_cpus playing _
           reachable_playing Hpc).
Defined.

(* ===================================================================== *)
(** * play                                                               *)
(* ===================================================================== *)

(** X8. A click on the play button toggles the periodic callback: it runs
    afterwards exactly if it did not run before, the table is disabled
    exactly if it runs, and the button is relabelled accordingly, also when
    there is no model to stream on the way to a stop.  The click never
    touches the model, the widgets, the table's frame or [framewise], and a
    second click brings the callback back to where it was. *)
Theorem play_toggles (s : State) :
  fps_slider (widgets s) <> 0%Z ->
  let s' := (play s).2 in
  callback_running s' = negb (callback_running s)
  /\ table_disabled s' = negb (callback_running s)
  /\ play_button_name s' = button_label (negb (callback_running s))
  /\ model s' = model s
  /\ widgets s' = widgets s
  /\ table_value s' = table_value s
  /\ framewise s' = framewise s
  /\ callback_running (play s').2 = callback_running s.
Proof.
  destruct s as [mo pipe pl tv td [[[] per]|] fw name w];
    cbn [widgets]; intros Hfps; apply Z.eqb_neq in Hfps;
    unfold_callbacks; unfold callback_running, button_label; simpl;
    rewrite ?Hfps; simpl; destruct mo; simpl; rewrite ?Hfps; simpl;
    repeat split; reflexivity.
Qed.

Lemma play_toggles_witness :
  fps_slider (widgets paused) <> 0%Z
  /\ callback_running (play paused).2 = true
  /\ table_disabled (play paused).2 = true
  /\ callback_running (play (play paused).2).2 = false.
Proof.
  assert (Hfps : fps_slider (widgets paused) <> 0%Z) by (simpl; lia).
  split; [exact Hfps|].
  destruct (play_toggles paused Hfps) as (Hr & Hd & _ & _ & _ & _ & _ & Hback).
  repeat split; assumption.
Defined.

(* ===================================================================== *)
(** * The callbacks on a missing model, a missing row, a foreign column  *)
(* ===================================================================== *)

(** X9. While there is no model, [update_model] and [edit_model] raise
    AttributeError and leave every global as it was: nothing is stepped,
    streamed or written to the table. *)
Theorem callbacks_need_model (phys : Physics) (s : State)
    (event : TableEditEvent) :
  model s = None ->
  update_model phys s = (Raised AttributeError, s)
  /\ edit_model event s = (Raised AttributeError, s).
Proof.
  intros Hm. unfold_callbacks. simpl. rewrite Hm.
  split; [reflexivity|].
  destruct (String.eqb (column event) "x"); simpl; rewrite ?Hm; simpl;
    [reflexivity|].
  destruct (String.eqb (column event) "y"); simpl; rewrite ?Hm; simpl;
    [reflexivity|].
  destruct (String.eqb (column event) "m"); simpl; rewrite ?Hm; reflexivity.
Qed.

Lemma callbacks_need_model_witness :
  model (initial eight_cpus) = None
  /\ update_model unit_physics (initial eight_cpus)
     = (Raised AttributeError, initial eight_cpus).
Proof.
  split; [reflexivity|].
  exact (proj1 (callbacks_need_model unit_physics (initial eight_cpus)
                  (mkTableEditEvent "x" 0 1) eq_refl)).
Defined.

(** X10. An edit of column x, y or m at a row the particle store does not
    have raises IndexError and leaves every global as it was: no particle is
    changed and nothing is streamed. *)
Theorem edit_model_row_out_of_range (s : State)
    (sys : MultithreadedParticleSystem) (c : string) (i : nat) (v : R) :
  model s = Some sys ->
  (length (particles sys) <= i)%nat ->
  c = "x"%string \/ c = "y"%string \/ c = "m"%string ->
  edit_model (mkTableEditEvent c i v) s = (Raised IndexError, s).
Proof.
  intros Hm Hi Hc.
  assert (Hnone : particles sys !! i = None) by now apply lookup_ge_None.
  destruct Hc as [-> | [-> | ->]]; unfold_callbacks; simpl;
    rewrite Hm; simpl; rewrite Hnone; reflexivity.
Qed.

Lemma edit_model_row_out_of_range_witness :
  model paused = Some two_particles
  /\ (length (particles two_particles) <= 2)%nat
  /\ edit_model (mkTableEditEvent "y" 2 7) paused = (Raised IndexError, paused).
Proof.
  assert (Hlen : (length (particles two_particles) <= 2)%nat) by (simpl; lia).
  split; [reflexivity|]. split; [exact Hlen|].
  exact (edit_model_row_out_of_range paused two_particles "y" 2 7 eq_refl Hlen
           (or_intror (or_introl eq_refl))).
Defined.

(** X11. An edit of a column other than x, y and m, at whatever row, returns
    without an error and without changing the model; it still streams the
    current frames through the pipe. *)
Theorem edit_model_other_column (s : State)
    (sys : MultithreadedParticleSystem) (c : string) (i : nat) (v : R) :
  model s = Some sys ->
  c <> "x"%string -> c <> "y"%string -> c <> "m"%string ->
  let s' := (edit_model (mkTableEditEvent c i v) s).2 in
  (edit_model (mkTableEditEvent c i v) s).1 = Returned tt
  /\ model s' = Some sys
  /\ particle_pipe s'
     = Some (map (fun p => (x p, y p, m p)) (particles sys), get_extents sys).
Proof.
  intros Hm Hx Hy Hmass.
  apply String.eqb_neq in Hx, Hy, Hmass.
  unfold_callbacks. simpl. rewrite Hx, Hy, Hmass. simpl. rewrite Hm. simpl.
  split; [reflexivity|]. split; [exact Hm|]. reflexivity.
Qed.

Lemma edit_model_other_column_witness :
  model paused = Some two_particles
  /\ "index"%string <> "x"%string
  /\ model (edit_model (mkTableEditEvent "index" 5 7) paused).2
     = Some two_particles.
Proof.
  assert (Hx : "index"%string <> "x"%string) by discriminate.
  assert (Hy : "index"%string <> "y"%string) by discriminate.
  assert (Hm : "index"%string <> "m"%string) by discriminate.
  split; [reflexivity|]. split; [exact Hx|].
  exact (proj1 (proj2 (edit_model_other_column paused two_particles "index" 5 7
                         eq_refl Hx Hy Hm))).
Defined.

(* ===================================================================== *)
(** * edit_model on the store and on the pipe                            *)
(* ===================================================================== *)

Lemma with_particles_same (sys : MultithreadedParticleSystem) :
  with_particles (particles sys) sys = sys.
Proof. now destruct sys. Qed.

(** What an edit at a row of the store leaves, for any column. *)
Lemma edit_model_returns (s : State) (sys : MultithreadedParticleSystem)
    (c : string) (i : nat) (v : R) (p : Particle) :
  model s = Some sys ->
  particles sys !! i = Some p ->
  let sys' := with_particles (<[i := edited c v p]> (particles sys)) sys in
  (edit_model (mkTableEditEvent c i v) s).1 = Returned tt
  /\ model (edit_model (mkTableEditEvent c i v) s).2 = Some sys'
  /\ particle_pipe (edit_model (mkTableEditEvent c i v) s).2
     = Some (particle_frame (particles sys'), get_extents sys).
Proof.
  intros Hm Hp. unfold edited. unfold_callbacks. simpl.
  destruct (String.eqb c "x"); simpl; rewrite ?Hm; simpl; rewrite ?Hp; simpl;
    [repeat split|].
  destruct (String.eqb c "y"); simpl; rewrite ?Hm; simpl; rewrite ?Hp; simpl;
    [repeat split|].
  destruct (String.eqb c "m"); simpl; rewrite ?Hm; simpl; rewrite ?Hp; simpl;
    [repeat split|].
  rewrite (list_insert_id _ _ _ Hp), with_particles_same.
  split; [reflexivity|]. split; [exact Hm|]. reflexivity.
Qed.

Lemma edited_twice (c : string) (v1 v2 : R) (p : Particle) :
  edited c v2 (edited c v1 p) = edited c v2 p.
Proof.
  unfold edited.
  destruct (String.eqb c "x"); [reflexivity|].
  destruct (String.eqb c "y"); [reflexivity|].
  destruct (String.eqb c "m"); reflexivity.
Qed.

Lemma edited_commute (c1 c2 : string) (v1 v2 : R) (p : Particle) :
  c1 <> c2 ->
  edited c2 v2 (edited c1 v1 p) = edited c1 v1 (edited c2 v2 p).
Proof.
  intros Hne. unfold edited.
  destruct (String.eqb_spec c1 "x"), (String.eqb_spec c2 "x");
    destruct (String.eqb_spec c1 "y"), (String.eqb_spec c2 "y");
    destruct (String.eqb_spec c1 "m"), (String.eqb_spec c2 "m");
    subst; try congruence; try discriminate; reflexivity.
Qed.

(** X12. An edit at a row of the store streams the particle frame in which
    that one row is replaced by the position and mass of the edited particle
    and every other row is as before, together with the model's extents. *)
Theorem edit_model_streams_edit (s : State)
    (sys : MultithreadedParticleSystem) (c : string) (i : nat) (v : R)
    (p : Particle) :
  model s = Some sys ->
  particles sys !! i = Some p ->
  let p' := edited c v p in
  particle_pipe (edit_model (mkTableEditEvent c i v) s).2
  = Some (<[i := (x p', y p', m p')]>
            (map (fun q => (x q, y q, m q)) (particles sys)),
          get_extents sys).
Proof.
  intros Hm Hp p'.
  destruct (edit_model_returns s sys c i v p Hm Hp) as (_ & _ & ->).
  simpl. unfold particle_frame.
  change (map (fun particle => (x particle, y particle, m particle)))
    with (fmap (M:=list) (fun particle => (x particle, y particle, m particle))).
  now rewrite list_fmap_insert.
Qed.

Lemma edit_model_streams_edit_witness :
  model paused = Some two_particles
  /\ particles two_particles !! 1%nat = Some (mkParticle (-1) 0 0 0 2)
  /\ particle_pipe (edit_model (mkTableEditEvent "x" 1 9) paused).2
     = Some ([(3, 4, 1); (9, 0, 2)], []).
Proof.
  split; [reflexivity|]. split; [reflexivity|].
  exact (edit_model_streams_edit paused two_particles "x" 1 9
           (mkParticle (-1) 0 0 0 2) eq_refl eq_refl).
Defined.

(** X13. Of two edits of the same cell the last one wins: the model is the
    one the second edit alone would have left. *)
Theorem edit_model_last_write_wins (s : State)
    (sys : MultithreadedParticleSystem) (c : string) (i : nat) (v1 v2 : R)
    (p : Particle) :
  model s = Some sys ->
  particles sys !! i = Some p ->
  model (edit_model (mkTableEditEvent c i v2)
                    (edit_model (mkTableEditEvent c i v1) s).2).2
  = model (edit_model (mkTableEditEvent c i v2) s).2.
Proof.
  intros Hm Hp.
  destruct (edit_model_returns s sys c i v1 p Hm Hp) as (_ & Hm1 & _).
  destruct (edit_model_returns s sys c i v2 p Hm Hp) as (_ & -> & _).
  assert (Hi : (i < length (particles sys))%nat)
    by (apply lookup_lt_is_Some; eauto).
  assert (Hp1 : particles
                  (with_particles (<[i := edited c v1 p]> (particles sys)) sys)
                !! i = Some (edited c v1 p))
    by (simpl; now apply list_lookup_insert_eq).
  destruct (edit_model_returns _ _ c i v2 _ Hm1 Hp1) as (_ & -> & _).
  simpl. unfold with_particles. simpl.
  now rewrite list_insert_insert_eq, edited_twice.
Qed.

Lemma edit_model_last_write_wins_witness :
  model paused = Some two_particles
  /\ particles two_particles !! 0%nat = Some (mkParticle 3 4 0 0 1)
  /\ model (edit_model (mkTableEditEvent "m" 0 6)
                       (edit_model (mkTableEditEvent "m" 0 5) paused).2).2
     = model (edit_model (mkTableEditEvent "m" 0 6) paused).2.
Proof.
  split; [reflexivity|]. split; [reflexivity|].
  exact (edit_model_last_write_wins paused two_particles "m" 0 5 6
           (mkParticle 3 4 0 0 1) eq_refl eq_refl).
Defined.

(** X14. Two edits of different cells, in different rows or in different
    columns of one row, commute: either order leaves the same model and
    streams the same frames. *)
Theorem edit_model_commutes (s : State) (sys : MultithreadedParticleSystem)
    (c1 c2 : string) (i j : nat) (v1 v2 : R) (p q : Particle) :
  model s = Some sys ->
  particles sys !! i = Some p ->
  particles sys !! j = Some q ->
  i <> j \/ c1 <> c2 ->
  let e1 := mkTableEditEvent c1 i v1 in
  let e2 := mkTableEditEvent c2 j v2 in
  model (edit_model e2 (edit_model e1 s).2).2
  = model (edit_model e1 (edit_model e2 s).2).2
  /\ particle_pipe (edit_model e2 (edit_model e1 s).2).2
     = particle_pipe (edit_model e1 (edit_model e2 s).2).2.
Proof.
  intros Hm Hp Hq Hne e1 e2. subst e1 e2.
  destruct (edit_model_returns s sys c1 i v1 p Hm Hp) as (_ & Hm1 & _).
  destruct (edit_model_returns s sys c2 j v2 q Hm Hq) as (_ & Hm2 & _).
  set (sys1 := with_particles (<[i := edited c1 v1 p]> (particles sys)) sys) in *.
  set (sys2 := with_particles (<[j := edited c2 v2 q]> (particles sys)) sys) in *.
  assert (Hi : (i < length (particles sys))%nat)
    by (apply lookup_lt_is_Some; eauto).
  assert (Hj : (j < length (particles sys))%nat)
    by (apply lookup_lt_is_Some; eauto).
  destruct (Nat.eq_dec i j) as [<- | Hij].
  - assert (q = p) by congruence. subst q.
    assert (Hc : c1 <> c2) by (destruct Hne; congruence).
    assert (H1 : particles sys1 !! i = Some (edited c1 v1 p))
      by (simpl; now apply list_lookup_insert_eq).
    assert (H2 : particles sys2 !! i = Some (edited c2 v2 p))
      by (simpl; now apply list_lookup_insert_eq).
    destruct (edit_model_returns _ _ c2 i v2 _ Hm1 H1) as (_ & -> & ->).
    destruct (edit_model_returns _ _ c1 i v1 _ Hm2 H2) as (_ & -> & ->).
    unfold sys1, sys2, with_particles, get_extents. simpl.
    rewrite !list_insert_insert_eq, (edited_commute c1 c2) by exact Hc.
    split; reflexivity.
  - assert (H1 : particles sys1 !! j = Some q)
      by (simpl; rewrite list_lookup_insert_ne by exact Hij; exact Hq).
    assert (H2 : particles sys2 !! i = Some p)
      by (simpl; rewrite list_lookup_insert_ne by (symmetry; exact Hij);
          exact Hp).
    destruct (edit_model_returns _ _ c2 j v2 _ Hm1 H1) as (_ & -> & ->).
    destruct (edit_model_returns _ _ c1 i v1 _ Hm2 H2) as (_ & -> & ->).
    unfold sys1, sys2, with_particles, get_extents. simpl.
    rewrite (list_insert_insert_ne _ i j) by exact Hij.
    split; reflexivity.
Qed.

Lemma edit_model_commutes_witness :
  model paused = Some two_particles
  /\ particles two_particles !! 0%nat = Some (mkParticle 3 4 0 0 1)
  /\ particles two_particles !! 1%nat = Some (mkParticle (-1) 0 0 0 2)
  /\ (0%nat <> 1%nat \/ "m"%string <> "x"%string)
  /\ model (edit_model (mkTableEditEvent "x" 1 9)
                       (edit_model (mkTableEditEvent "m" 0 5) paused).2).2
     = model (edit_model (mkTableEditEvent "m" 0 5)
                         (edit_model (mkTableEditEvent "x" 1 9) paused).2).2.
Proof.
  assert (Hne : 0%nat <> 1%nat \/ "m"%string <> "x"%string)
    by (left; discriminate).
  split; [reflexivity|]. split; [reflexivity|]. split; [reflexivity|].
  split; [exact Hne|].
  exact (proj1 (edit_model_commutes paused two_particles "m" "x" 0 1 5 9
                  (mkParticle 3 4 0 0 1) (mkParticle (-1) 0 0 0 2)
                  eq_refl eq_refl eq_refl Hne)).
Defined.

(* ===================================================================== *)
(** * reset, whatever came before                                        *)
(* ===================================================================== *)

(** X15. However [reset] ends, no periodic callback is left: also when it
    raises, the callback has been stopped and removed, and a button that
    read Stop while it ran reads Play again. *)
Theorem reset_removes_periodic_callback (phys : Physics) (s : State) :
  periodic_callback (reset phys s).2 = None
  /\ callback_running (reset phys s).2 = false
  /\ play_button_name (reset phys s).2
     = (if callback_running s then "Play"%string else play_button_name s).
Proof.
  destruct s as [mo pipe pl tv td [[[] per]|] fw name w];
    unfold callback_running; run_callbacks; repeat split.
Qed.

(** X16. What [reset] does is decided by the widgets alone: from two states
    whose widgets hold the same values it ends the same way, and when it
    returns it leaves the same model, the same streamed frames and plot, the
    same table and no periodic callback, whatever was simulated or edited
    before. *)
Theorem reset_depends_on_widgets_only (phys : Physics) (s1 s2 : State) :
  widgets s1 = widgets s2 ->
  let r1 := reset phys s1 in
  let r2 := reset phys s2 in
  r1.1 = r2.1
  /\ (r1.1 = Returned tt ->
      model r1.2 = model r2.2
      /\ particle_pipe r1.2 = particle_pipe r2.2
      /\ plot r1.2 = plot r2.2
      /\ table_value r1.2 = table_value r2.2
      /\ table_disabled r1.2 = table_disabled r2.2
      /\ periodic_callback r1.2 = periodic_callback r2.2
      /\ framewise r1.2 = framewise r2.2).
Proof.
  intros Hw. cbv zeta.
  destruct (thread_count_slider (widgets s1)) as [t|] eqn:Ht1.
  - assert (Ht2 : thread_count_slider (widgets s2) = Some t) by congruence.
    destruct (constructed phys (widgets s1) t) as [sys|] eqn:Hc1.
    + assert (Hc2 : constructed phys (widgets s2) t = Some sys) by congruence.
      rewrite (reset_returns phys s1 t sys Ht1 Hc1),
              (reset_returns phys s2 t sys Ht2 Hc2).
      unfold after_reset. simpl. rewrite Hw. repeat split.
    + assert (Hc2 : constructed phys (widgets s2) t = None) by congruence.
      destruct (reset_invalid phys s1 t Ht1 Hc1) as [-> _].
      destruct (reset_invalid phys s2 t Ht2 Hc2) as [-> _].
      split; [reflexivity|discriminate].
  - assert (Ht2 : thread_count_slider (widgets s2) = None) by congruence.
    destruct (reset_no_threads phys s1 Ht1) as [-> _].
    destruct (reset_no_threads phys s2 Ht2) as [-> _].
    split; [reflexivity|discriminate].
Qed.

Lemma reset_depends_on_widgets_only_witness :
  widgets paused = widgets (initial eight_cpus)
  /\ (reset unit_physics paused).1 = (reset unit_physics (initial eight_cpus)).1.
Proof.
  split; [reflexivity|].
  exact (proj1 (reset_depends_on_widgets_only unit_physics paused
                  (initial eight_cpus) eq_refl)).
Defined.

(** X17. A second reset right after a reset that returned changes nothing:
    it returns and leaves every global as the first one left it. *)
Theorem reset_idempotent (phys : Physics) (s : State) :
  (reset phys s).1 = Returned tt ->
  reset phys (reset phys s).2 = reset phys s.
Proof.
  intros Hret.
  destruct (reset_returned_inv phys s Hret) as (t & sys & Ht & Hc & Heq).
  rewrite Heq. cbn [snd].
  rewrite (reset_returns phys (after_reset s sys) t sys); [reflexivity| |];
    simpl; assumption.
Qed.

Lemma reset_idempotent_witness :
  (reset unit_physics (initial eight_cpus)).1 = Returned tt
  /\ reset unit_physics (reset unit_physics (initial eight_cpus)).2
     = reset unit_physics (initial eight_cpus).
Proof.
  split; [exact eight_cpus_loaded|].
  exact (reset_idempotent unit_physics (initial eight_cpus) eight_cpus_loaded).
Defined.

(** X18. The velocity loop of [reset] moves no particle and changes no mass,
    so the frame of positions and masses is the same before and after it;
    a particle within 1e-8 of the origin is left entirely as it was, and
    running the loop a second time changes nothing. *)
Theorem orbit_keeps_positions_and_masses (ps : list Particle) :
  particle_frame (map orbit ps) = particle_frame ps
  /\ map orbit (map orbit ps) = map orbit ps
  /\ Forall (fun p => hypot (x p) (y p) <= 1e-8 -> orbit p = p) ps.
Proof.
  assert (Hxy : forall p, x (orbit p) = x p /\ y (orbit p) = y p
                          /\ m (orbit p) = m p).
  { intros p. unfold orbit.
    destruct (Rgt_dec (hypot (x p) (y p)) 1e-8); repeat split. }
  assert (Hidem : forall p, orbit (orbit p) = orbit p).
  { intros p. destruct (Hxy p) as (Hx & Hy & Hm).
    unfold orbit at 1. rewrite Hx, Hy, Hm.
    unfold orbit.
    destruct (Rgt_dec (hypot (x p) (y p)) 1e-8); reflexivity. }
  split; [|split].
  - unfold particle_frame. rewrite map_map. apply map_ext.
    intros p. destruct (Hxy p) as (-> & -> & ->). reflexivity.
  - rewrite map_map. apply map_ext. exact Hidem.
  - rewrite List.Forall_forall. intros p _ Hr. unfold orbit.
    destruct (Rgt_dec (hypot (x p) (y p)) 1e-8); [lra|reflexivity].
Qed.

(* ===================================================================== *)
(** * update_model on the loaded dashboard                               *)
(* ===================================================================== *)

(** X19. On the loaded dashboard every firing of [update_model] returns and
    leaves the plot showing the particles of the stepped model over its
    tree regions, framewise off, the rectangles at alpha 0.25 when Display
    Quadtree is on and 0 when it is off; the button, the periodic callback
    and the disabled table are as before. *)
Theorem update_model_renders_stepped_model (phys : Physics) (cpu_count : Z)
    (s : State) :
  loaded phys cpu_count ->
  reachable phys cpu_count s ->
  exists sys : MultithreadedParticleSystem,
    model s = Some sys
    /\ (update_model phys s).1 = Returned tt
    /\ plot (update_model phys s).2
       = PointsOverRectangles
           (map (fun p => (x p, y p, m p)) (particles (update phys sys)))
           (get_extents (update phys sys))
           (if quadtree_display (widgets s) then 0.25 else 0) false
    /\ play_button_name (update_model phys s).2 = play_button_name s
    /\ periodic_callback (update_model phys s).2 = periodic_callback s
    /\ table_disabled (update_model phys s).2 = table_disabled s.
Proof.
  intros Hl Hs.
  destruct (reachable_has_model phys cpu_count s Hl Hs) as [sys Hm].
  pose proof (reachable_framewise phys cpu_count s Hl Hs) as Hfw.
  exists sys. split; [exact Hm|].
  unfold_callbacks. simpl. rewrite Hm. simpl. rewrite Hfw.
  split; [reflexivity|]. split; [|repeat split].
  unfold particle_frame. f_equal.
  destruct (quadtree_display (widgets s)); lra.
Qed.

Lemma update_model_renders_stepped_model_witness :
  loaded unit_physics eight_cpus
  /\ reachable unit_physics eight_cpus playing
  /\ exists sys, model playing = Some sys
                 /\ (update_model unit_physics playing).1 = Returned tt.
Proof.
  split; [exact eight_cpus_loaded|]. split; [exact reachable_playing|].
  destruct (update_model_renders_stepped_model unit_physics eight_cpus playing
              eight_cpus_loaded reachable_playing) as (sys & Hm & Hret & _).
  exists sys. split; assumption.
Defined.
